(** * tabletservermock.Controller: the mock tablet-server controller

    A shallow embedding of [go/vt/vttablet/tabletservermock/controller.go].

    The controller is a Go struct guarded by one mutex; two of its fields are
    buffered channels on which [SetServingType] and [BroadcastHealth] send.
    The embedding keeps:
    - the [Target] message behind a pointer, in an explicit heap, so that
      [proto.Clone] and aliasing can be observed;
    - the mutex as a flag, with [defer tqsc.mu.Unlock()] run on return and on
      panic;
    - the channels as bounded FIFO buffers whose send parks the caller when
      the buffer is full.

    The controller is one that [NewController] made: its rule map and its
    two channels are allocated.

    Names are those of the source.  Where Go uses one name twice, the second
    use is marked: the channel field [BroadcastData] is [BroadcastData_chan],
    the fields of the two event structs are [BD_RealtimeStats], [BD_Serving]
    and [TabletType_], the field of [Target] is [Target_TabletType], and the
    methods [Stats], [QueryService], [SchemaEngine] and [TopoServer] carry a
    trailing underscore. *)

From stdpp Require Import gmap strings list fin_maps.
From Stdlib Require Import ZArith.

Set Default Proof Using "Type".

(** ** Declarations imported from other packages *)

(** Modelled from the spec: the enumeration [topodatapb.TabletType], declared
    in the generated topodata package, which is not part of this source
    file.  The spec names PRIMARY and REPLICA; the controller only stores and
    copies values of this type. *)
Inductive TabletType : Type :=
  | UNKNOWN | PRIMARY | REPLICA | RDONLY | SPARE
  | EXPERIMENTAL | BACKUP | RESTORE | DRAINED.

#[global] Instance TabletType_eq_dec : EqDecision TabletType.
Proof. solve_decision. Defined.

(** Modelled from the spec: the message [querypb.Target], declared in the
    generated query package: "the (keyspace, shard, tablet-type) triple
    identifying what a tablet currently serves". *)
Record Target : Type := mkTarget {
  Keyspace : string;
  Shard : string;
  Target_TabletType : TabletType;
}.

#[global] Instance Target_eq_dec : EqDecision Target.
Proof. solve_decision. Defined.

(** Types of the other packages that the controller holds or passes through
    without ever looking inside them.  A Go pointer to one of them is an
    [option]: [None] is [nil]. *)
Class Imports : Type := {
  Stats : Type;          (* tabletenv.Stats *)
  TopoServer : Type;     (* topo.Server *)
  Rules : Type;          (* rules.Rules *)
  DBConfigs : Type;      (* dbconfigs.DBConfigs *)
  MysqlDaemon : Type;    (* mysqlctl.MysqlDaemon *)
  QueryService : Type;   (* queryservice.QueryService *)
  SchemaEngine : Type;   (* schema.Engine *)
  Time : Type;           (* time.Time *)
  Context : Type;        (* context.Context *)
  ErrorValue : Type;     (* a non-nil value of the interface [error] *)
  RealtimeStats : Type;  (* querypb.RealtimeStats *)
  RealtimeStats_zero : RealtimeStats;  (* its zero value *)
}.

(** Addresses of [Target] messages. *)
Abbreviation addr := positive (only parsing).

(** ** Buffered channels *)

(** [make(chan T, n)]: a FIFO buffer, oldest element first, and its
    capacity. *)
Record chan (T : Type) : Type := mkChan {
  chan_buf : list T;
  chan_cap : nat;
}.
Arguments mkChan {T} _ _.
Arguments chan_buf {T} _.
Arguments chan_cap {T} _.

Definition make_chan (T : Type) (n : nat) : chan T :=
  {| chan_buf := []; chan_cap := n |}.

Definition chan_full {T} (c : chan T) : bool :=
  bool_decide (chan_cap c ≤ length (chan_buf c)).

(** A send that finds room appends at the tail. *)
Definition chan_push {T} (v : T) (c : chan T) : chan T :=
  {| chan_buf := chan_buf c ++ [v]; chan_cap := chan_cap c |}.

(** A receiver arriving while a sender holding [v] is parked on the full
    channel [c]: the receiver takes the head of the buffer and the sender's
    value goes to the tail (with no buffer, the receiver takes [v] itself).
    Returns the received value and the channel afterwards. *)
Definition chan_recv_handoff {T} (v : T) (c : chan T) : T * chan T :=
  match chan_buf c with
  | [] => (v, c)
  | x :: q => (x, {| chan_buf := q ++ [v]; chan_cap := chan_cap c |})
  end.

(** A receive from the buffer, when nobody is parked on the channel. *)
Definition chan_recv {T} (c : chan T) : option (T * chan T) :=
  match chan_buf c with
  | [] => None
  | x :: q => Some (x, {| chan_buf := q; chan_cap := chan_cap c |})
  end.

(** The channel once a send of [v] has gone through: appended where there
    was room, handed over by a receiver where there was none. *)
Definition chan_after_send {T} (v : T) (c : chan T) : chan T :=
  if chan_full c then (chan_recv_handoff v c).2 else chan_push v c.

(** The buffer is within the capacity. *)
Definition chan_ok {T} (c : chan T) : Prop :=
  length (chan_buf c) ≤ chan_cap c.

Section Controller.
Context `{Imports}.

(** ** Data *)

Record BroadcastData : Type := mkBroadcastData {
  TERTimestamp : Z;                  (* int64 *)
  BD_RealtimeStats : RealtimeStats;  (* field RealtimeStats *)
  BD_Serving : bool;                 (* field Serving *)
}.

Record StateChange : Type := mkStateChange {
  Serving : bool;
  TabletType_ : TabletType;          (* field TabletType *)
}.

(** The interface type [error]: [None] is [nil]. *)
Definition error : Type := option ErrorValue.

Record Controller : Type := mkController {
  stats : option Stats;
  BroadcastData_chan : chan BroadcastData;   (* field BroadcastData *)
  StateChanges : chan StateChange;
  target : option addr;
  SetServingTypeError : error;
  TS : option TopoServer;
  mu : bool;                                 (* true: the mutex is held *)
  queryServiceEnabled : bool;
  isInLameduck : bool;
  queryRulesMap : gmap string (option Rules);
}.

(** The controller together with the [Target] messages allocated so far. *)
Record World : Type := mkWorld {
  heap : gmap addr Target;
  tqsc : Controller;
}.

(** Field assignments. *)
Definition set_BroadcastData_chan (c : chan BroadcastData) (t : Controller) : Controller :=
  mkController (stats t) c (StateChanges t) (target t) (SetServingTypeError t)
    (TS t) (mu t) (queryServiceEnabled t) (isInLameduck t) (queryRulesMap t).
Definition set_StateChanges (c : chan StateChange) (t : Controller) : Controller :=
  mkController (stats t) (BroadcastData_chan t) c (target t) (SetServingTypeError t)
    (TS t) (mu t) (queryServiceEnabled t) (isInLameduck t) (queryRulesMap t).
Definition set_target (p : option addr) (t : Controller) : Controller :=
  mkController (stats t) (BroadcastData_chan t) (StateChanges t) p (SetServingTypeError t)
    (TS t) (mu t) (queryServiceEnabled t) (isInLameduck t) (queryRulesMap t).
Definition set_SetServingTypeError (e : error) (t : Controller) : Controller :=
  mkController (stats t) (BroadcastData_chan t) (StateChanges t) (target t) e
    (TS t) (mu t) (queryServiceEnabled t) (isInLameduck t) (queryRulesMap t).
Definition set_mu (b : bool) (t : Controller) : Controller :=
  mkController (stats t) (BroadcastData_chan t) (StateChanges t) (target t) (SetServingTypeError t)
    (TS t) b (queryServiceEnabled t) (isInLameduck t) (queryRulesMap t).
Definition set_queryServiceEnabled (b : bool) (t : Controller) : Controller :=
  mkController (stats t) (BroadcastData_chan t) (StateChanges t) (target t) (SetServingTypeError t)
    (TS t) (mu t) b (isInLameduck t) (queryRulesMap t).
Definition set_isInLameduck (b : bool) (t : Controller) : Controller :=
  mkController (stats t) (BroadcastData_chan t) (StateChanges t) (target t) (SetServingTypeError t)
    (TS t) (mu t) (queryServiceEnabled t) b (queryRulesMap t).
Definition set_queryRulesMap (m : gmap string (option Rules)) (t : Controller) : Controller :=
  mkController (stats t) (BroadcastData_chan t) (StateChanges t) (target t) (SetServingTypeError t)
    (TS t) (mu t) (queryServiceEnabled t) (isInLameduck t) m.

Definition on_tqsc (f : Controller → Controller) (w : World) : World :=
  {| heap := heap w; tqsc := f (tqsc w) |}.
Definition set_heap (h : gmap addr Target) (w : World) : World :=
  {| heap := h; tqsc := tqsc w |}.

(** ** Calls: return, panic, or park *)

(** What a parked goroutine waits for. *)
Inductive wait : Type :=
  | WaitMutex
  | WaitStateChanges (v : StateChange)
  | WaitBroadcastData (v : BroadcastData).

(** The result of running a call from a world.  [Parked w r k]: the
    goroutine is suspended in world [w]; once what it waits for has happened,
    it goes on as [k] from the world it finds then. *)
Inductive outcome (A : Type) : Type :=
  | Returned (w : World) (a : A)
  | Panicked (w : World)
  | Parked (w : World) (r : wait) (k : World → outcome A).
Arguments Returned {A} _ _.
Arguments Panicked {A} _.
Arguments Parked {A} _ _ _.

Definition M (A : Type) : Type := World → outcome A.

Fixpoint outcome_bind {A B} (f : A → M B) (o : outcome A) : outcome B :=
  match o with
  | Returned w a => f a w
  | Panicked w => Panicked w
  | Parked w r k => Parked w r (λ w', outcome_bind f (k w'))
  end.

#[global] Instance M_ret : MRet M := λ A a w, Returned w a.
#[global] Instance M_bind : MBind M := λ A B f m w, outcome_bind f (m w).

Definition get {A} (f : Controller → A) : M A := λ w, Returned w (f (tqsc w)).
Definition assign (f : Controller → Controller) : M unit :=
  λ w, Returned (on_tqsc f w) tt.

(** [defer d] around a body: [d] runs when the body returns and when it
    panics. *)
Fixpoint run_deferred {A} (d : World → World) (o : outcome A) : outcome A :=
  match o with
  | Returned w a => Returned (d w) a
  | Panicked w => Panicked (d w)
  | Parked w r k => Parked w r (λ w', run_deferred d (k w'))
  end.
Definition defer {A} (d : World → World) (body : M A) : M A :=
  λ w, run_deferred d (body w).

(** [tqsc.mu.Lock()]: parks while another goroutine holds the mutex. *)
Definition Lock : M unit := λ w,
  if mu (tqsc w)
  then Parked w WaitMutex (λ w', Returned (on_tqsc (set_mu true) w') tt)
  else Returned (on_tqsc (set_mu true) w) tt.

(** [tqsc.mu.Unlock()]. *)
Definition Unlock : World → World := on_tqsc (set_mu false).

(** [tqsc.StateChanges <- v]. *)
Definition send_StateChanges (v : StateChange) : M unit := λ w,
  if chan_full (StateChanges (tqsc w))
  then Parked w (WaitStateChanges v) (λ w', Returned w' tt)
  else Returned (on_tqsc (set_StateChanges (chan_push v (StateChanges (tqsc w)))) w) tt.

(** [tqsc.BroadcastData <- v]. *)
Definition send_BroadcastData (v : BroadcastData) : M unit := λ w,
  if chan_full (BroadcastData_chan (tqsc w))
  then Parked w (WaitBroadcastData v) (λ w', Returned w' tt)
  else Returned (on_tqsc (set_BroadcastData_chan (chan_push v (BroadcastData_chan (tqsc w)))) w) tt.

(** [proto.Clone(p)], asserted back to a Target pointer: [nil] for [nil];
    otherwise a newly allocated message with the fields of [*p].  An address
    outside the heap does not denote a message: reading through it panics. *)
Definition Clone (p : option addr) : M (option addr) := λ w,
  match p with
  | None => Returned w None
  | Some a =>
      match heap w !! a with
      | None => Panicked w
      | Some t =>
          let a' := fresh (dom (heap w)) in
          Returned (set_heap (<[a' := t]> (heap w)) w) (Some a')
      end
  end.

(** [p.TabletType = ty]: a nil-pointer dereference panics. *)
Definition store_TabletType (p : option addr) (ty : TabletType) : M unit := λ w,
  match p with
  | None => Panicked w
  | Some a =>
      match heap w !! a with
      | None => Panicked w
      | Some t =>
          Returned (set_heap (<[a := mkTarget (Keyspace t) (Shard t) ty]> (heap w)) w) tt
      end
  end.

(** Every method that touches the protected fields opens with
    [tqsc.mu.Lock(); defer tqsc.mu.Unlock()]. *)
Definition locked {A} (body : M A) : M A :=
  Lock ;; defer Unlock body.

(** ** The controller's methods *)

(** [NewController].  [st] is the object that
    [tabletenv.NewStats(servenv.NewExporter(...))] hands back. *)
Definition NewController (st : Stats) : Controller :=
  {| stats := Some st;
     BroadcastData_chan := make_chan BroadcastData 10;
     StateChanges := make_chan StateChange 10;
     target := None;
     SetServingTypeError := None;
     TS := None;
     mu := false;
     queryServiceEnabled := false;
     isInLameduck := false;
     queryRulesMap := ∅ |}.

Definition Stats_ : M (option Stats) := get stats.

Definition Register : M unit := mret tt.
Definition AddStatusHeader : M unit := mret tt.
Definition AddStatusPart : M unit := mret tt.

Definition InitDBConfig (tgt : option addr) (dbcfgs : option DBConfigs)
    (_ : option MysqlDaemon) : M error :=
  locked (
    p ← Clone tgt;
    assign (set_target p) ;;
    mret None).

Definition SetServingType (tabletType : TabletType) (terTime : Time)
    (serving : bool) (reason : string) : M error :=
  locked (
    e ← get SetServingTypeError;
    match e with
    | None =>
        p ← get target;
        store_TabletType p tabletType ;;
        assign (set_queryServiceEnabled serving)
    | Some _ => mret tt
    end ;;
    send_StateChanges {| Serving := serving; TabletType_ := tabletType |} ;;
    assign (set_isInLameduck false) ;;
    get SetServingTypeError).

Definition IsServing : M bool :=
  locked (get queryServiceEnabled).

Definition CurrentTarget : M (option addr) :=
  locked (
    p ← get target;
    Clone p).

Definition IsHealthy : M error := mret None.

Definition ReloadSchema (ctx : Context) : M error := mret None.

Definition ClearQueryPlanCache : M unit := mret tt.

Definition RegisterQueryRuleSource (ruleSource : string) : M unit := mret tt.

Definition UnRegisterQueryRuleSource (ruleSource : string) : M unit := mret tt.

Definition SetQueryRules (ruleSource : string) (qrs : option Rules) : M error :=
  locked (
    assign (λ t, set_queryRulesMap (<[ruleSource := qrs]> (queryRulesMap t)) t) ;;
    mret None).

Definition QueryService_ : M (option QueryService) := mret None.

Definition SchemaEngine_ : M (option SchemaEngine) := mret None.

Definition BroadcastHealth : M unit :=
  locked (
    q ← get queryServiceEnabled;
    l ← get isInLameduck;
    send_BroadcastData
      {| TERTimestamp := 0;
         BD_RealtimeStats := RealtimeStats_zero;
         BD_Serving := q && negb l |}).

Definition TopoServer_ : M (option TopoServer) := get TS.

Definition EnterLameduck : M unit :=
  locked (assign (set_isInLameduck true)).

Definition SetQueryServiceEnabledForTests (enabled : bool) : M unit :=
  locked (assign (set_queryServiceEnabled enabled)).

(** Indexing a Go map at a key it does not hold gives the zero value of the
    element type, here the nil pointer. *)
Definition GetQueryRules (ruleSource : string) : M (option Rules) :=
  locked (get (λ t, default None (queryRulesMap t !! ruleSource))).

(** ** The test side *)

(** What the test has read from the two channels, oldest first. *)
Record Consumer : Type := mkConsumer {
  got_StateChanges : list StateChange;
  got_BroadcastData : list BroadcastData;
}.

(** A call parked on a full channel goes on when the test receives from that
    channel.  Nothing in a test wakes a call parked on the mutex: the only
    holders are the controller's own calls. *)
Fixpoint complete {A} (o : outcome A) (c : Consumer) : outcome A * Consumer :=
  match o with
  | Parked w (WaitStateChanges v) k =>
      let '(x, ch) := chan_recv_handoff v (StateChanges (tqsc w)) in
      complete (k (on_tqsc (set_StateChanges ch) w))
        {| got_StateChanges := got_StateChanges c ++ [x];
           got_BroadcastData := got_BroadcastData c |}
  | Parked w (WaitBroadcastData v) k =>
      let '(x, ch) := chan_recv_handoff v (BroadcastData_chan (tqsc w)) in
      complete (k (on_tqsc (set_BroadcastData_chan ch) w))
        {| got_StateChanges := got_StateChanges c;
           got_BroadcastData := got_BroadcastData c ++ [x] |}
  | _ => (o, c)
  end.

(** [<-tqsc.StateChanges] when the buffer holds something; with an empty
    buffer the test has nothing to read and moves on. *)
Definition receive_StateChanges (w : World) (c : Consumer) : World * Consumer :=
  match chan_recv (StateChanges (tqsc w)) with
  | Some (x, ch) =>
      (on_tqsc (set_StateChanges ch) w,
       {| got_StateChanges := got_StateChanges c ++ [x];
          got_BroadcastData := got_BroadcastData c |})
  | None => (w, c)
  end.

(** A test that drives [SetServingType] and reads the state-change channel. *)
Inductive action : Type :=
  | Call (tabletType : TabletType) (terTime : Time) (serving : bool) (reason : string)
  | Receive.

Fixpoint run (acts : list action) (w : World) (c : Consumer)
    : outcome unit * Consumer :=
  match acts with
  | [] => (Returned w tt, c)
  | Receive :: rest =>
      let '(w', c') := receive_StateChanges w c in run rest w' c'
  | Call ty ter sv rs :: rest =>
      match complete (SetServingType ty ter sv rs w) c with
      | (Returned w' _, c') => run rest w' c'
      | (Panicked w', c') => (Panicked w', c')
      | (Parked w' r k, c') => (Parked w' r (λ w'', Returned w'' tt), c')
      end
  end.

(** The arguments of the last call of a test, and the events its calls send. *)
Fixpoint last_call (acts : list action) : option (TabletType * bool) :=
  match acts with
  | [] => None
  | Call ty _ sv _ :: rest =>
      match last_call rest with
      | Some c => Some c
      | None => Some (ty, sv)
      end
  | Receive :: rest => last_call rest
  end.

Fixpoint events (acts : list action) : list StateChange :=
  match acts with
  | [] => []
  | Call ty _ sv _ :: rest => {| Serving := sv; TabletType_ := ty |} :: events rest
  | Receive :: rest => events rest
  end.

Definition result {A} (o : outcome A) : option A :=
  match o with
  | Returned _ a => Some a
  | _ => None
  end.

(** A message that the caller still holds is overwritten through its
    pointer. *)
Definition caller_writes (a : addr) (t : Target) (w : World) : World :=
  set_heap (<[a := t]> (heap w)) w.

(** The message behind a pointer. *)
Definition deref (w : World) (p : option addr) : option Target :=
  p ≫= λ a, heap w !! a.

(** Everything the state-change channel has carried that is still of
    interest: what the test has read, then what is still buffered. *)
Definition stream_StateChanges (w : World) (c : Consumer) : list StateChange :=
  got_StateChanges c ++ chan_buf (StateChanges (tqsc w)).

Definition stream_BroadcastData (w : World) (c : Consumer) : list BroadcastData :=
  got_BroadcastData c ++ chan_buf (BroadcastData_chan (tqsc w)).

(** A world in which nothing has happened yet. *)
Definition initial_world (st : Stats) : World :=
  {| heap := ∅; tqsc := NewController st |}.

(** The controller holds a [Target]. *)
Definition target_stored (w : World) : Prop :=
  is_Some (deref w (target (tqsc w))).


(** The state in which [SetServingType] takes effect: nobody inside the
    controller, no injected failure, a [Target] in place. *)
Definition ready (w : World) : Prop :=
  mu (tqsc w) = false ∧
  SetServingTypeError (tqsc w) = None ∧
  target_stored w.

(** The state in which [SetServingType] at least returns. *)
Definition safe (w : World) : Prop :=
  mu (tqsc w) = false ∧
  (SetServingTypeError (tqsc w) ≠ None ∨ target_stored w).

(** A pointer a caller can hold: nil, or the address of a message. *)
Definition valid_ptr (w : World) (p : option addr) : Prop :=
  match p with
  | None => True
  | Some a => is_Some (heap w !! a)
  end.

(** The tablet type that [CurrentTarget] would report. *)
Definition tablet_type_of (w : World) : option TabletType :=
  Target_TabletType <$> deref w (target (tqsc w)).

(** A test that never reads the state-change channel. *)
Definition calls_only (acts : list action) : bool :=
  forallb (λ a, match a with Call _ _ _ _ => true | Receive => false end) acts.

End Controller.

Arguments Returned {H A} _ _.
Arguments Panicked {H A} _.
Arguments Parked {H A} _ _ _.

(** ** Concrete worlds *)

(** One choice of the imported types, to run the controller on. *)
Definition sample_imports : Imports :=
  {| Stats := unit; TopoServer := unit; Rules := nat; DBConfigs := unit;
     MysqlDaemon := unit; QueryService := unit; SchemaEngine := unit;
     Time := Z; Context := unit; ErrorValue := string;
     RealtimeStats := unit; RealtimeStats_zero := tt |}.

Abbreviation sWorld := (@World sample_imports) (only parsing).
Abbreviation sConsumer := (@Consumer sample_imports) (only parsing).

(** Two instants and an error value. *)
Definition t0 : @Time sample_imports := 0%Z.
Definition t1 : @Time sample_imports := 1%Z.
Definition ErrX : @ErrorValue sample_imports := "ErrX".

(** A newly made controller. *)
Definition fresh : sWorld := @initial_world sample_imports tt.

Definition nobody : sConsumer :=
  {| got_StateChanges := []; got_BroadcastData := [] |}.

(** The test holds a [Target] at address 1 and has installed it: the
    controller holds its own copy at address 2. *)
Definition ks0_replica : Target :=
  {| Keyspace := "ks"; Shard := "0"; Target_TabletType := REPLICA |}.

Definition configured : sWorld :=
  {| heap := <[2%positive := ks0_replica]> (<[1%positive := ks0_replica]> ∅);
     tqsc := @set_target sample_imports (Some 2%positive)
               (@NewController sample_imports tt) |}.

(** The same, with a failure injected. *)
Definition failing : sWorld :=
  on_tqsc (set_SetServingTypeError (Some ErrX)) configured.

(** A newly made controller that has entered lameduck. *)
Definition fresh_lameduck : sWorld :=
  on_tqsc (@set_isInLameduck sample_imports true) fresh.

(** A configured controller whose state-change channel is full. *)
Definition ten_events : list StateChange :=
  replicate 10 {| Serving := true; TabletType_ := REPLICA |}.

Definition congested : sWorld :=
  on_tqsc (@set_StateChanges sample_imports {| chan_buf := ten_events; chan_cap := 10 |})
    configured.

(** A configured controller while some call holds the mutex. *)
Definition held : sWorld :=
  on_tqsc (@set_mu sample_imports true) configured.

(** A configured controller in lameduck. *)
Definition configured_lameduck : sWorld :=
  on_tqsc (@set_isInLameduck sample_imports true) configured.

(** Two calls, and ten. *)
Definition two_calls : list (@action sample_imports) :=
  [Call REPLICA t0 true "init"; Call PRIMARY t1 false "demote"].

Definition ten_calls : list (@action sample_imports) :=
  replicate 10 (Call REPLICA t0 true "init").

Section Properties.
Context `{Imports}.

(** * Properties *)

Ltac unfold_call :=
  unfold SetServingType, InitDBConfig, IsServing, CurrentTarget, SetQueryRules,
    GetQueryRules, BroadcastHealth, EnterLameduck, SetQueryServiceEnabledForTests,
    locked, Lock, defer, Unlock, mbind, M_bind, mret, M_ret, get, assign,
    send_StateChanges, send_BroadcastData, store_TabletType, Clone;
  cbn.

(** ** Channels *)

Lemma handoff_stream {T} (v : T) (ch : chan T) (got : list T) :
  (got ++ [(chan_recv_handoff v ch).1]) ++ chan_buf (chan_recv_handoff v ch).2
  = got ++ chan_buf ch ++ [v].
Proof.
  unfold chan_recv_handoff. destruct (chan_buf ch) as [|x q] eqn:E; cbn.
  - by rewrite E, app_nil_r.
  - by rewrite <- app_assoc.
Qed.

Lemma receive_StateChanges_stream w c :
  stream_StateChanges (receive_StateChanges w c).1 (receive_StateChanges w c).2
  = stream_StateChanges w c.
Proof.
  unfold receive_StateChanges, chan_recv, stream_StateChanges.
  destruct (chan_buf (StateChanges (tqsc w))) as [|x q] eqn:E; cbn.
  - by rewrite E.
  - by rewrite <- app_assoc.
Qed.

(** ** SetServingType, case by case *)

(** With an injected failure: nothing but the event and the lameduck flag. *)
Lemma SetServingType_failure w c ty ter sv rs e :
  mu (tqsc w) = false →
  SetServingTypeError (tqsc w) = Some e →
  ∃ w' c',
    complete (SetServingType ty ter sv rs w) c = (Returned w' (Some e), c') ∧
    heap w' = heap w ∧
    target (tqsc w') = target (tqsc w) ∧
    queryServiceEnabled (tqsc w') = queryServiceEnabled (tqsc w) ∧
    isInLameduck (tqsc w') = false ∧
    mu (tqsc w') = false ∧
    SetServingTypeError (tqsc w') = Some e ∧
    stream_StateChanges w' c' = stream_StateChanges w c ++ [mkStateChange sv ty].
Proof.
  intros Hmu He. unfold_call. rewrite Hmu. cbn. rewrite He. cbn.
  destruct (chan_full _); cbn.
  - destruct (chan_recv_handoff _ _) as [x ch] eqn:E. cbn.
    eexists _, _. split; [by rewrite He|]. cbn. repeat split; try done.
    unfold stream_StateChanges; cbn.
    pose proof (handoff_stream (mkStateChange sv ty) (StateChanges (tqsc w))
                  (got_StateChanges c)) as Hs.
    rewrite E in Hs. cbn in Hs. by rewrite Hs, app_assoc.
  - eexists _, _. split; [by rewrite He|]. cbn. repeat split; try done.
    unfold stream_StateChanges; cbn. by rewrite app_assoc.
Qed.

(** Without one, and with a [Target] in place: the type and the serving flag
    are taken over as well. *)
Lemma SetServingType_success w c ty ter sv rs a t :
  mu (tqsc w) = false →
  SetServingTypeError (tqsc w) = None →
  target (tqsc w) = Some a →
  heap w !! a = Some t →
  ∃ w' c',
    complete (SetServingType ty ter sv rs w) c = (Returned w' None, c') ∧
    heap w' = <[a := mkTarget (Keyspace t) (Shard t) ty]> (heap w) ∧
    target (tqsc w') = Some a ∧
    queryServiceEnabled (tqsc w') = sv ∧
    isInLameduck (tqsc w') = false ∧
    mu (tqsc w') = false ∧
    SetServingTypeError (tqsc w') = None ∧
    stream_StateChanges w' c' = stream_StateChanges w c ++ [mkStateChange sv ty].
Proof.
  intros Hmu He Ha Ht. unfold_call. rewrite Hmu. cbn. rewrite He. cbn.
  rewrite Ha. cbn. rewrite Ht. cbn.
  destruct (chan_full _); cbn.
  - destruct (chan_recv_handoff _ _) as [x ch] eqn:E. cbn.
    eexists _, _. split; [by rewrite He|]. cbn. repeat split; try done.
    unfold stream_StateChanges; cbn.
    pose proof (handoff_stream (mkStateChange sv ty) (StateChanges (tqsc w))
                  (got_StateChanges c)) as Hs.
    rewrite E in Hs. cbn in Hs. by rewrite Hs, app_assoc.
  - eexists _, _. split; [by rewrite He|]. cbn. repeat split; try done.
    unfold stream_StateChanges; cbn. by rewrite app_assoc.
Qed.

(** Without one, and with no [Target]: the assignment through the nil
    pointer panics before anything is written or sent. *)
Lemma SetServingType_nil_target w ty ter sv rs :
  mu (tqsc w) = false →
  SetServingTypeError (tqsc w) = None →
  target (tqsc w) = None →
  ∃ w',
    SetServingType ty ter sv rs w = Panicked w' ∧
    heap w' = heap w ∧
    tqsc w' = set_mu false (tqsc w).
Proof.
  intros Hmu He Ha. unfold_call. rewrite Hmu. cbn. rewrite He. cbn.
  rewrite Ha. cbn.
  eexists. split; [done|]. split; [done|]. cbn. by destruct (tqsc w).
Qed.

(** ** The readers *)

Lemma IsServing_returns w :
  mu (tqsc w) = false →
  ∃ w', IsServing w = Returned w' (queryServiceEnabled (tqsc w)) ∧
        heap w' = heap w ∧ tqsc w' = tqsc w.
Proof.
  intros Hmu. unfold_call. rewrite Hmu. cbn.
  eexists. split; [done|]. split; [done|]. cbn.
  destruct (tqsc w); cbn in *; by subst.
Qed.

(** [CurrentTarget] allocates: the pointer it returns is new, and what was
    in the heap stays. *)
Lemma CurrentTarget_some w a t :
  mu (tqsc w) = false →
  target (tqsc w) = Some a →
  heap w !! a = Some t →
  ∃ w' a',
    CurrentTarget w = Returned w' (Some a') ∧
    heap w !! a' = None ∧
    heap w' = <[a' := t]> (heap w) ∧
    tqsc w' = tqsc w.
Proof.
  intros Hmu Ha Ht. unfold_call. rewrite Hmu. cbn. rewrite Ha, Ht. cbn.
  eexists _, _. split; [done|]. split.
  { apply not_elem_of_dom, is_fresh. }
  split; [done|]. cbn. destruct (tqsc w); cbn in *; by subst.
Qed.

Lemma CurrentTarget_nil w :
  mu (tqsc w) = false →
  target (tqsc w) = None →
  ∃ w', CurrentTarget w = Returned w' None ∧ heap w' = heap w ∧ tqsc w' = tqsc w.
Proof.
  intros Hmu Ha. unfold_call. rewrite Hmu. cbn. rewrite Ha. cbn.
  eexists. split; [done|]. split; [done|]. cbn.
  destruct (tqsc w); cbn in *; by subst.
Qed.

(** ** InitDBConfig *)

Lemma InitDBConfig_some w a t dbcfgs daemon :
  mu (tqsc w) = false →
  heap w !! a = Some t →
  ∃ w' a',
    InitDBConfig (Some a) dbcfgs daemon w = Returned w' None ∧
    heap w !! a' = None ∧
    heap w' = <[a' := t]> (heap w) ∧
    tqsc w' = set_target (Some a') (tqsc w).
Proof.
  intros Hmu Ht. unfold_call. rewrite Hmu. cbn. rewrite Ht. cbn.
  eexists _, _. split; [done|]. split.
  { apply not_elem_of_dom, is_fresh. }
  split; [done|]. cbn. destruct (tqsc w); cbn in *; by subst.
Qed.

Lemma InitDBConfig_nil w dbcfgs daemon :
  mu (tqsc w) = false →
  ∃ w',
    InitDBConfig None dbcfgs daemon w = Returned w' None ∧
    heap w' = heap w ∧
    tqsc w' = set_target None (tqsc w).
Proof.
  intros Hmu. unfold_call. rewrite Hmu. cbn.
  eexists. split; [done|]. split; [done|]. cbn.
  destruct (tqsc w); cbn in *; by subst.
Qed.

(** ** Tests that call SetServingType *)

Lemma target_stored_inv w :
  target_stored w → ∃ a t, target (tqsc w) = Some a ∧ heap w !! a = Some t.
Proof.
  unfold target_stored, deref. intros [t Ht].
  destruct (target (tqsc w)) as [a|]; [|done]. by exists a, t.
Qed.

Lemma ready_safe w : ready w → safe w.
Proof. intros (? & ? & ?). split; [done|]. by right. Qed.

(** One call from a safe state: it returns what was injected, the state is
    safe again, and the channel has carried one more event. *)
Lemma SetServingType_safe w c ty ter sv rs :
  safe w →
  ∃ w' c',
    complete (SetServingType ty ter sv rs w) c
      = (Returned w' (SetServingTypeError (tqsc w)), c') ∧
    safe w' ∧
    SetServingTypeError (tqsc w') = SetServingTypeError (tqsc w) ∧
    isInLameduck (tqsc w') = false ∧
    stream_StateChanges w' c' = stream_StateChanges w c ++ [mkStateChange sv ty].
Proof.
  intros [Hmu Hs].
  destruct (SetServingTypeError (tqsc w)) as [e|] eqn:He.
  - destruct (SetServingType_failure w c ty ter sv rs e Hmu He)
      as (w' & c' & Hrun & Hh & Ht & Hq & Hl & Hmu' & He' & Hst).
    exists w', c'. repeat split; try done. left. by rewrite He'.
  - destruct Hs as [|Hs]; [done|].
    destruct (target_stored_inv w Hs) as (a & t & Ha & Ht).
    destruct (SetServingType_success w c ty ter sv rs a t Hmu He Ha Ht)
      as (w' & c' & Hrun & Hh & Ha' & Hq & Hl & Hmu' & He' & Hst).
    exists w', c'. repeat split; try done. right.
    unfold target_stored, deref. rewrite Ha', Hh. cbn.
    rewrite lookup_insert_eq. by eexists.
Qed.

Lemma SetServingType_ready w c ty ter sv rs :
  ready w →
  ∃ w' c',
    complete (SetServingType ty ter sv rs w) c = (Returned w' None, c') ∧
    ready w' ∧
    tablet_type_of w' = Some ty ∧
    queryServiceEnabled (tqsc w') = sv.
Proof.
  intros (Hmu & He & Hs).
  destruct (target_stored_inv w Hs) as (a & t & Ha & Ht).
  destruct (SetServingType_success w c ty ter sv rs a t Hmu He Ha Ht)
    as (w' & c' & Hrun & Hh & Ha' & Hq & Hl & Hmu' & He' & Hst).
  exists w', c'. split; [done|].
  assert (deref w' (target (tqsc w')) = Some (mkTarget (Keyspace t) (Shard t) ty)) as Hd.
  { unfold deref. rewrite Ha', Hh. cbn. by rewrite lookup_insert_eq. }
  split; [|split; [|done]].
  - repeat split; try done. unfold target_stored. rewrite Hd. by eexists.
  - unfold tablet_type_of. by rewrite Hd.
Qed.

(** Reading the channel leaves the rest of the controller alone. *)
Lemma receive_StateChanges_frame w c :
  let w' := (receive_StateChanges w c).1 in
  heap w' = heap w ∧
  mu (tqsc w') = mu (tqsc w) ∧
  SetServingTypeError (tqsc w') = SetServingTypeError (tqsc w) ∧
  target (tqsc w') = target (tqsc w) ∧
  queryServiceEnabled (tqsc w') = queryServiceEnabled (tqsc w) ∧
  isInLameduck (tqsc w') = isInLameduck (tqsc w).
Proof.
  unfold receive_StateChanges.
  by destruct (chan_recv (StateChanges (tqsc w))) as [[x ch]|].
Qed.

Lemma receive_StateChanges_safe w c :
  safe w → safe (receive_StateChanges w c).1.
Proof.
  destruct (receive_StateChanges_frame w c) as (Hh & Hmu & He & Ht & _).
  unfold safe, target_stored, deref. by rewrite Hh, Hmu, He, Ht.
Qed.

Lemma receive_StateChanges_ready w c :
  ready w → ready (receive_StateChanges w c).1.
Proof.
  destruct (receive_StateChanges_frame w c) as (Hh & Hmu & He & Ht & _).
  unfold ready, target_stored, deref. by rewrite Hh, Hmu, He, Ht.
Qed.

(** A test run from a safe state goes through, and the channel carries the
    events of its calls, in the order of the calls. *)
Lemma run_safe acts : ∀ w c,
  safe w →
  ∃ w' c',
    run acts w c = (Returned w' tt, c') ∧
    safe w' ∧
    stream_StateChanges w' c' = stream_StateChanges w c ++ events acts.
Proof.
  induction acts as [|[ty ter sv rs|] rest IH]; intros w c Hs; cbn [run events].
  - exists w, c. by rewrite app_nil_r.
  - destruct (SetServingType_safe w c ty ter sv rs Hs)
      as (w1 & c1 & Hrun & Hs1 & _ & _ & Hst). rewrite Hrun.
    destruct (IH w1 c1 Hs1) as (w' & c' & Hrun' & Hs' & Hst').
    exists w', c'. split; [done|]. split; [done|].
    by rewrite Hst', Hst, <- app_assoc.
  - pose proof (receive_StateChanges_safe w c Hs) as Hs1.
    pose proof (receive_StateChanges_stream w c) as Hst.
    destruct (receive_StateChanges w c) as [w1 c1]. cbn in *.
    destruct (IH w1 c1 Hs1) as (w' & c' & Hrun' & Hs' & Hst').
    exists w', c'. split; [done|]. split; [done|]. by rewrite Hst', Hst.
Qed.

(** From a ready state, the type and the serving flag are those of the last
    call ([ty0], [sv0] while there has been none). *)
Lemma run_ready acts : ∀ w c ty0 sv0,
  ready w →
  tablet_type_of w = Some ty0 →
  queryServiceEnabled (tqsc w) = sv0 →
  ∃ w' c',
    run acts w c = (Returned w' tt, c') ∧
    ready w' ∧
    tablet_type_of w' = Some (default (ty0, sv0) (last_call acts)).1 ∧
    queryServiceEnabled (tqsc w') = (default (ty0, sv0) (last_call acts)).2.
Proof.
  induction acts as [|[ty ter sv rs|] rest IH]; intros w c ty0 sv0 Hr Hty Hsv;
    cbn [run last_call].
  - by exists w, c.
  - destruct (SetServingType_ready w c ty ter sv rs Hr)
      as (w1 & c1 & Hrun & Hr1 & Hty1 & Hsv1). rewrite Hrun.
    destruct (IH w1 c1 ty sv Hr1 Hty1 Hsv1) as (w' & c' & Hrun' & Hr' & Hty' & Hsv').
    exists w', c'. split; [done|]. split; [done|].
    by destruct (last_call rest).
  - pose proof (receive_StateChanges_ready w c Hr) as Hr1.
    destruct (receive_StateChanges_frame w c) as (Hh & _ & _ & Ht & Hq & _).
    assert (tablet_type_of (receive_StateChanges w c).1 = Some ty0) as Hty1.
    { unfold tablet_type_of, deref in *. by rewrite Ht, Hh. }
    destruct (receive_StateChanges w c) as [w1 c1]. cbn in *.
    rewrite <- Hq in Hsv.
    by apply IH.
Qed.

(** ** Room in the channel, or none *)

(** With room, the call returns by itself and its event is the newest in
    the buffer. *)
Lemma SetServingType_room w ty ter sv rs :
  safe w →
  chan_full (StateChanges (tqsc w)) = false →
  ∃ w',
    SetServingType ty ter sv rs w = Returned w' (SetServingTypeError (tqsc w)) ∧
    chan_buf (StateChanges (tqsc w'))
      = chan_buf (StateChanges (tqsc w)) ++ [mkStateChange sv ty] ∧
    mu (tqsc w') = false.
Proof.
  intros [Hmu Hs] Hfull. unfold_call. rewrite Hmu. cbn.
  destruct (SetServingTypeError (tqsc w)) as [e|] eqn:He; cbn.
  - rewrite Hfull. cbn. rewrite He. by eexists.
  - destruct Hs as [|Hs]; [done|].
    destruct (target_stored_inv w Hs) as (a & t & Ha & Ht).
    rewrite Ha. cbn. rewrite Ht. cbn. rewrite Hfull. cbn. rewrite He.
    by eexists.
Qed.

(** Without room, the call parks on the send, and it parks with the mutex
    held: the deferred unlock has not run. *)
Lemma SetServingType_parks w ty ter sv rs :
  safe w →
  chan_full (StateChanges (tqsc w)) = true →
  ∃ w1 k,
    SetServingType ty ter sv rs w = Parked w1 (WaitStateChanges (mkStateChange sv ty)) k ∧
    mu (tqsc w1) = true ∧
    StateChanges (tqsc w1) = StateChanges (tqsc w).
Proof.
  intros [Hmu Hs] Hfull. unfold_call. rewrite Hmu. cbn.
  destruct (SetServingTypeError (tqsc w)) as [e|] eqn:He; cbn.
  - rewrite Hfull. cbn. by eexists _, _.
  - destruct Hs as [|Hs]; [done|].
    destruct (target_stored_inv w Hs) as (a & t & Ha & Ht).
    rewrite Ha. cbn. rewrite Ht. cbn. rewrite Hfull. cbn. by eexists _, _.
Qed.

(** A call that returns started from a safe state. *)
Lemma SetServingType_returned_safe w c ty ter sv rs w' r c' :
  complete (SetServingType ty ter sv rs w) c = (Returned w' r, c') →
  safe w.
Proof.
  unfold safe, target_stored, deref. unfold_call.
  destruct (mu (tqsc w)); cbn; [done|].
  destruct (SetServingTypeError (tqsc w)) as [e|]; cbn.
  { intros _. split; [done|]. by left. }
  destruct (target (tqsc w)) as [a|]; cbn; [|done].
  destruct (heap w !! a) as [t|]; cbn; [|done].
  intros _. split; [done|]. right. by eexists.
Qed.

(** ** BroadcastHealth and EnterLameduck *)

Lemma BroadcastHealth_returns w c :
  mu (tqsc w) = false →
  ∃ w' c',
    complete (BroadcastHealth w) c = (Returned w' tt, c') ∧
    stream_BroadcastData w' c'
      = stream_BroadcastData w c ++
        [mkBroadcastData 0 RealtimeStats_zero
           (queryServiceEnabled (tqsc w) && negb (isInLameduck (tqsc w)))] ∧
    heap w' = heap w ∧
    queryServiceEnabled (tqsc w') = queryServiceEnabled (tqsc w) ∧
    isInLameduck (tqsc w') = isInLameduck (tqsc w) ∧
    mu (tqsc w') = false.
Proof.
  intros Hmu. unfold_call. rewrite Hmu. cbn.
  destruct (chan_full _); cbn.
  - destruct (chan_recv_handoff _ _) as [x ch] eqn:E. cbn.
    eexists _, _. split; [done|]. cbn. repeat split; try done.
    unfold stream_BroadcastData; cbn.
    match type of E with chan_recv_handoff ?v ?b = _ =>
      pose proof (handoff_stream v b (got_BroadcastData c)) as Hs end.
    rewrite E in Hs. cbn in Hs. by rewrite Hs, app_assoc.
  - eexists _, _. split; [done|]. cbn. repeat split; try done.
    unfold stream_BroadcastData; cbn. by rewrite app_assoc.
Qed.

Lemma BroadcastHealth_room w :
  mu (tqsc w) = false →
  chan_full (BroadcastData_chan (tqsc w)) = false →
  ∃ w',
    BroadcastHealth w = Returned w' tt ∧
    chan_buf (BroadcastData_chan (tqsc w'))
      = chan_buf (BroadcastData_chan (tqsc w)) ++
        [mkBroadcastData 0 RealtimeStats_zero
           (queryServiceEnabled (tqsc w) && negb (isInLameduck (tqsc w)))].
Proof.
  intros Hmu Hfull. unfold_call. rewrite Hmu. cbn. rewrite Hfull. cbn.
  by eexists.
Qed.

Lemma BroadcastHealth_parks w :
  mu (tqsc w) = false →
  chan_full (BroadcastData_chan (tqsc w)) = true →
  ∃ w1 k,
    BroadcastHealth w
      = Parked w1
          (WaitBroadcastData
             (mkBroadcastData 0 RealtimeStats_zero
                (queryServiceEnabled (tqsc w) && negb (isInLameduck (tqsc w))))) k ∧
    mu (tqsc w1) = true.
Proof.
  intros Hmu Hfull. unfold_call. rewrite Hmu. cbn. rewrite Hfull. cbn.
  by eexists _, _.
Qed.

Lemma EnterLameduck_returns w :
  mu (tqsc w) = false →
  ∃ w',
    EnterLameduck w = Returned w' tt ∧
    heap w' = heap w ∧
    tqsc w' = set_isInLameduck true (tqsc w).
Proof.
  intros Hmu. unfold_call. rewrite Hmu. cbn.
  eexists. split; [done|]. split; [done|]. cbn.
  destruct (tqsc w); cbn in *; by subst.
Qed.

(** ** The query rules *)

Lemma SetQueryRules_returns w src qrs :
  mu (tqsc w) = false →
  ∃ w',
    SetQueryRules src qrs w = Returned w' None ∧
    heap w' = heap w ∧
    tqsc w' = set_queryRulesMap (<[src := qrs]> (queryRulesMap (tqsc w))) (tqsc w).
Proof.
  intros Hmu. unfold_call. rewrite Hmu. cbn.
  eexists. split; [done|]. split; [done|]. cbn.
  destruct (tqsc w); cbn in *; by subst.
Qed.

Lemma GetQueryRules_returns w src :
  mu (tqsc w) = false →
  ∃ w',
    GetQueryRules src w
      = Returned w' (default None (queryRulesMap (tqsc w) !! src)) ∧
    heap w' = heap w ∧
    tqsc w' = tqsc w.
Proof.
  intros Hmu. unfold_call. rewrite Hmu. cbn.
  eexists. split; [done|]. split; [done|]. cbn.
  destruct (tqsc w); cbn in *; by subst.
Qed.


(** * The claims *)

(** C1. From a state in which a [Target] has been stored and no failure is
    injected, after any test made of [SetServingType] calls (and reads of the
    state-change channel), [IsServing] returns the serving flag of the last
    call and [CurrentTarget] returns a message whose tablet type is the
    tablet type of the last call. *)
Theorem SetServingType_last_call_wins (acts : list action) (w : World)
    (c : Consumer) (ty : TabletType) (sv : bool) :
  ready w →
  last_call acts = Some (ty, sv) →
  ∃ w' c',
    run acts w c = (Returned w' tt, c') ∧
    result (IsServing w') = Some sv ∧
    ∃ w'' a t,
      CurrentTarget w' = Returned w'' (Some a) ∧
      heap w'' !! a = Some t ∧
      Target_TabletType t = ty.
Proof.
  intros Hr Hlast.
  destruct (target_stored_inv w (proj2 (proj2 Hr))) as (a0 & t0 & Ha0 & Ht0).
  destruct (run_ready acts w c (Target_TabletType t0) (queryServiceEnabled (tqsc w)))
    as (w' & c' & Hrun & (Hmu & He & Hs) & Hty & Hq); [done| |done|].
  { unfold tablet_type_of, deref. rewrite Ha0. cbn. by rewrite Ht0. }
  rewrite Hlast in Hty, Hq. cbn in Hty, Hq.
  exists w', c'. split; [done|]. split.
  - destruct (IsServing_returns w' Hmu) as (w'' & -> & _). cbn. by rewrite Hq.
  - destruct (target_stored_inv w' Hs) as (a & t & Ha & Ht).
    destruct (CurrentTarget_some w' a t Hmu Ha Ht) as (w'' & a' & Hcur & _ & Hh & _).
    exists w'', a', t. split; [done|]. split.
    + by rewrite Hh, lookup_insert_eq.
    + unfold tablet_type_of, deref in Hty. rewrite Ha in Hty. cbn in Hty.
      rewrite Ht in Hty. cbn in Hty. congruence.
Qed.

(** C2. A [SetServingType] call made while a failure is injected returns
    exactly that failure; the target pointer, the message behind it and
    [queryServiceEnabled] are what they were; the state-change channel has
    carried one more event, that of the call; [isInLameduck] is false. *)
Theorem SetServingType_injected_failure (w : World) (c : Consumer)
    (ty : TabletType) (ter : Time) (sv : bool) (rs : string) (e : ErrorValue) :
  mu (tqsc w) = false →
  SetServingTypeError (tqsc w) = Some e →
  ∃ w' c',
    complete (SetServingType ty ter sv rs w) c = (Returned w' (Some e), c') ∧
    target (tqsc w') = target (tqsc w) ∧
    heap w' = heap w ∧
    deref w' (target (tqsc w')) = deref w (target (tqsc w)) ∧
    queryServiceEnabled (tqsc w') = queryServiceEnabled (tqsc w) ∧
    stream_StateChanges w' c' = stream_StateChanges w c ++ [mkStateChange sv ty] ∧
    isInLameduck (tqsc w') = false.
Proof.
  intros Hmu He.
  destruct (SetServingType_failure w c ty ter sv rs e Hmu He)
    as (w' & c' & Hrun & Hh & Ht & Hq & Hl & _ & _ & Hst).
  exists w', c'. repeat split; try done. unfold deref. by rewrite Ht, Hh.
Qed.

(** C3 (amended). A [SetServingType] call made while a [Target] is stored or
    a failure is injected sends exactly one event, carrying the call's
    serving flag and tablet type: the channel has carried one more event
    once the call has returned, and with room in the buffer the call returns
    by itself with its event last in the buffer.  Over a test, the channel
    carries the events of the calls in the order of the calls. *)
Theorem SetServingType_event_per_call (acts : list action) (w : World)
    (c : Consumer) (ty : TabletType) (ter : Time) (sv : bool) (rs : string) :
  safe w →
  (∃ w' c',
     complete (SetServingType ty ter sv rs w) c
       = (Returned w' (SetServingTypeError (tqsc w)), c') ∧
     stream_StateChanges w' c' = stream_StateChanges w c ++ [mkStateChange sv ty]) ∧
  (chan_full (StateChanges (tqsc w)) = false →
   ∃ w',
     SetServingType ty ter sv rs w = Returned w' (SetServingTypeError (tqsc w)) ∧
     chan_buf (StateChanges (tqsc w'))
       = chan_buf (StateChanges (tqsc w)) ++ [mkStateChange sv ty]) ∧
  (∃ w' c',
     run acts w c = (Returned w' tt, c') ∧
     stream_StateChanges w' c' = stream_StateChanges w c ++ events acts).
Proof.
  intros Hs. split; [|split].
  - destruct (SetServingType_safe w c ty ter sv rs Hs) as (w' & c' & Hrun & _ & _ & _ & Hst).
    by exists w', c'.
  - intros Hfull.
    destruct (SetServingType_room w ty ter sv rs Hs Hfull) as (w' & Hrun & Hb & _).
    by exists w'.
  - destruct (run_safe acts w c Hs) as (w' & c' & Hrun & _ & Hst).
    by exists w', c'.
Qed.

(** C4 (amended). A [SetServingType] call made while a [Target] is stored or
    a failure is injected returns, and [isInLameduck] is false afterwards,
    whatever the serving flag; more generally [isInLameduck] is false after
    every call that returns. *)
Theorem SetServingType_clears_lameduck (w : World) (c : Consumer)
    (ty : TabletType) (ter : Time) (sv : bool) (rs : string) :
  safe w →
  (∃ w' c',
     complete (SetServingType ty ter sv rs w) c
       = (Returned w' (SetServingTypeError (tqsc w)), c') ∧
     isInLameduck (tqsc w') = false) ∧
  (∀ (w0 w' : World) (c0 c' : Consumer) (r : error),
     complete (SetServingType ty ter sv rs w0) c0 = (Returned w' r, c') →
     isInLameduck (tqsc w') = false).
Proof.
  intros Hs. split.
  - destruct (SetServingType_safe w c ty ter sv rs Hs) as (w' & c' & Hrun & _ & _ & Hl & _).
    by exists w', c'.
  - intros w0 w' c0 c' r Hrun.
    pose proof (SetServingType_returned_safe _ _ _ _ _ _ _ _ _ Hrun) as Hs0.
    destruct (SetServingType_safe w0 c0 ty ter sv rs Hs0) as (w1 & c1 & Hrun1 & _ & _ & Hl & _).
    rewrite Hrun in Hrun1. by simplify_eq.
Qed.


(** C5. A [BroadcastHealth] call sends exactly one [BroadcastData], whose
    [Serving] field is [queryServiceEnabled && !isInLameduck] as they are at
    the call and whose other fields are zero; after [EnterLameduck] the value
    sent is false whatever [IsServing] returns; on a newly made controller it
    is false. *)
Theorem BroadcastHealth_effective_serving (w : World) (c : Consumer) (st : Stats) :
  mu (tqsc w) = false →
  (∃ w' c',
     complete (BroadcastHealth w) c = (Returned w' tt, c') ∧
     stream_BroadcastData w' c'
       = stream_BroadcastData w c ++
         [mkBroadcastData 0 RealtimeStats_zero
            (queryServiceEnabled (tqsc w) && negb (isInLameduck (tqsc w)))]) ∧
  (chan_full (BroadcastData_chan (tqsc w)) = false →
   ∃ w',
     BroadcastHealth w = Returned w' tt ∧
     chan_buf (BroadcastData_chan (tqsc w'))
       = chan_buf (BroadcastData_chan (tqsc w)) ++
         [mkBroadcastData 0 RealtimeStats_zero
            (queryServiceEnabled (tqsc w) && negb (isInLameduck (tqsc w)))]) ∧
  (∃ w1 w2 c2,
     EnterLameduck w = Returned w1 tt ∧
     result (IsServing w1) = Some (queryServiceEnabled (tqsc w)) ∧
     complete (BroadcastHealth w1) c = (Returned w2 tt, c2) ∧
     stream_BroadcastData w2 c2
       = stream_BroadcastData w c ++ [mkBroadcastData 0 RealtimeStats_zero false]) ∧
  (∃ w',
     BroadcastHealth (initial_world st) = Returned w' tt ∧
     chan_buf (BroadcastData_chan (tqsc w')) = [mkBroadcastData 0 RealtimeStats_zero false]).
Proof.
  intros Hmu. split; [|split; [|split]].
  - destruct (BroadcastHealth_returns w c Hmu) as (w' & c' & Hrun & Hst & _).
    by exists w', c'.
  - intros Hfull. by apply BroadcastHealth_room.
  - destruct (EnterLameduck_returns w Hmu) as (w1 & Hrun1 & Hh1 & Hc1).
    assert (mu (tqsc w1) = false) as Hmu1 by (by rewrite Hc1).
    destruct (BroadcastHealth_returns w1 c Hmu1) as (w2 & c2 & Hrun2 & Hst & _).
    exists w1, w2, c2. split; [done|]. split.
    { destruct (IsServing_returns w1 Hmu1) as (w' & -> & _). cbn. by rewrite Hc1. }
    split; [done|]. rewrite Hst. unfold stream_BroadcastData.
    rewrite Hc1. cbn. by rewrite andb_false_r.
  - destruct (BroadcastHealth_room (initial_world st)) as (w' & Hrun & Hb); [done..|].
    by exists w'.
Qed.

(** C6. [SetQueryRules src R] then [GetQueryRules src] gives [R]; a later
    [SetQueryRules] on the same source replaces it, and one on another
    source does not touch it; [GetQueryRules] on a source the map does not
    hold, as on a newly made controller, gives nil. *)
Theorem QueryRules_round_trip (w : World) (src src' : string)
    (R R2 : option Rules) (st : Stats) :
  mu (tqsc w) = false →
  (∃ w1,
     SetQueryRules src R w = Returned w1 None ∧
     result (GetQueryRules src w1) = Some R ∧
     (∃ w2,
        SetQueryRules src R2 w1 = Returned w2 None ∧
        result (GetQueryRules src w2) = Some R2) ∧
     (src' ≠ src →
      result (GetQueryRules src' w1) = result (GetQueryRules src' w))) ∧
  (queryRulesMap (tqsc w) !! src' = None →
   result (GetQueryRules src' w) = Some None) ∧
  result (GetQueryRules src' (initial_world st)) = Some None.
Proof.
  intros Hmu. split; [|split].
  - destruct (SetQueryRules_returns w src R Hmu) as (w1 & Hrun1 & _ & Hc1).
    assert (mu (tqsc w1) = false) as Hmu1 by (by rewrite Hc1).
    exists w1. split; [done|]. split; [|split].
    + destruct (GetQueryRules_returns w1 src Hmu1) as (w' & -> & _). cbn.
      rewrite Hc1. cbn. by rewrite lookup_insert_eq.
    + destruct (SetQueryRules_returns w1 src R2 Hmu1) as (w2 & Hrun2 & _ & Hc2).
      assert (mu (tqsc w2) = false) as Hmu2 by (by rewrite Hc2).
      exists w2. split; [done|].
      destruct (GetQueryRules_returns w2 src Hmu2) as (w' & -> & _). cbn.
      rewrite Hc2. cbn. by rewrite lookup_insert_eq.
    + intros Hne.
      destruct (GetQueryRules_returns w1 src' Hmu1) as (w' & -> & _).
      destruct (GetQueryRules_returns w src' Hmu) as (w'' & -> & _). cbn.
      rewrite Hc1. cbn. by rewrite lookup_insert_ne.
  - intros Hnone.
    destruct (GetQueryRules_returns w src' Hmu) as (w' & -> & _). cbn.
    by rewrite Hnone.
  - destruct (GetQueryRules_returns (initial_world st) src') as (w' & -> & _); [done|].
    cbn. by rewrite lookup_empty.
Qed.

(** C7. The message [CurrentTarget] returns is a copy: overwriting it
    through the returned pointer changes neither the controller's message
    nor what the next [CurrentTarget] returns.  [InitDBConfig] stores a
    copy: overwriting the caller's message afterwards changes neither. *)
Theorem Target_copies_independent (w : World) (a : addr) (t t' : Target)
    (dbcfgs : option DBConfigs) (daemon : option MysqlDaemon) :
  mu (tqsc w) = false →
  heap w !! a = Some t →
  (target (tqsc w) = Some a →
   ∃ w1 a1,
     CurrentTarget w = Returned w1 (Some a1) ∧
     heap w1 !! a1 = Some t ∧
     deref (caller_writes a1 t' w1) (target (tqsc (caller_writes a1 t' w1))) = Some t ∧
     ∃ w3 a3,
       CurrentTarget (caller_writes a1 t' w1) = Returned w3 (Some a3) ∧
       heap w3 !! a3 = Some t) ∧
  (∃ w1,
     InitDBConfig (Some a) dbcfgs daemon w = Returned w1 None ∧
     deref w1 (target (tqsc w1)) = Some t ∧
     deref (caller_writes a t' w1) (target (tqsc (caller_writes a t' w1))) = Some t ∧
     ∃ w3 a3,
       CurrentTarget (caller_writes a t' w1) = Returned w3 (Some a3) ∧
       heap w3 !! a3 = Some t).
Proof.
  intros Hmu Ht. split.
  - intros Ha.
    destruct (CurrentTarget_some w a t Hmu Ha Ht) as (w1 & a1 & Hrun & Hfresh & Hh & Hc).
    assert (a1 ≠ a) as Hne by (intros ->; congruence).
    exists w1, a1. split; [done|]. split.
    { by rewrite Hh, lookup_insert_eq. }
    assert (heap (caller_writes a1 t' w1) !! a = Some t) as Ht2.
    { cbn. rewrite Hh. by rewrite !lookup_insert_ne. }
    assert (tqsc (caller_writes a1 t' w1) = tqsc w) as Hc2 by done.
    split.
    { unfold deref. rewrite Hc2, Ha. cbn [mbind option_bind]. exact Ht2. }
    destruct (CurrentTarget_some (caller_writes a1 t' w1) a t)
      as (w3 & a3 & Hrun3 & _ & Hh3 & _); [by rewrite Hc2..|done|].
    exists w3, a3. split; [done|]. by rewrite Hh3, lookup_insert_eq.
  - destruct (InitDBConfig_some w a t dbcfgs daemon Hmu Ht)
      as (w1 & a1 & Hrun & Hfresh & Hh & Hc).
    assert (a1 ≠ a) as Hne by (intros ->; congruence).
    assert (deref w1 (target (tqsc w1)) = Some t) as Hd.
    { unfold deref. rewrite Hc, Hh. cbn. by rewrite lookup_insert_eq. }
    exists w1. split; [done|]. split; [done|].
    assert (heap (caller_writes a t' w1) !! a1 = Some t) as Ht2.
    { cbn. rewrite Hh. by rewrite lookup_insert_ne, lookup_insert_eq. }
    assert (tqsc (caller_writes a t' w1) = set_target (Some a1) (tqsc w)) as Hc2 by done.
    split.
    { unfold deref. rewrite Hc2. cbn. exact Ht2. }
    destruct (CurrentTarget_some (caller_writes a t' w1) a1 t)
      as (w3 & a3 & Hrun3 & _ & Hh3 & _); [by rewrite Hc2..|done|].
    exists w3, a3. split; [done|]. by rewrite Hh3, lookup_insert_eq.
Qed.

(** C8. [InitDBConfig], [IsHealthy], [ReloadSchema] and [SetQueryRules]
    return nil, whatever they are given; [RegisterQueryRuleSource] and
    [UnRegisterQueryRuleSource] return with the world as it was, the rule
    map included. *)
Theorem other_operations_never_fail (w : World) (tgt : option addr)
    (dbcfgs : option DBConfigs) (daemon : option MysqlDaemon) (ctx : Context)
    (src : string) (qrs : option Rules) :
  mu (tqsc w) = false →
  valid_ptr w tgt →
  (∃ w', InitDBConfig tgt dbcfgs daemon w = Returned w' None) ∧
  IsHealthy w = Returned w None ∧
  ReloadSchema ctx w = Returned w None ∧
  (∃ w', SetQueryRules src qrs w = Returned w' None) ∧
  RegisterQueryRuleSource src w = Returned w tt ∧
  UnRegisterQueryRuleSource src w = Returned w tt.
Proof.
  intros Hmu Hp. repeat split.
  - destruct tgt as [a|].
    + destruct Hp as [t Ht].
      destruct (InitDBConfig_some w a t dbcfgs daemon Hmu Ht) as (w' & _ & Hrun & _).
      by exists w'.
    + destruct (InitDBConfig_nil w dbcfgs daemon Hmu) as (w' & Hrun & _).
      by exists w'.
  - destruct (SetQueryRules_returns w src qrs Hmu) as (w' & Hrun & _).
    by exists w'.
Qed.

(** C9 (amended). [SetServingType] and [BroadcastHealth] send on their
    channel with the mutex held: when the channel is full the call is
    suspended while it holds the mutex, and the mutex is free again only
    when the call has returned. *)
Theorem push_under_lock (w : World) (c : Consumer)
    (ty : TabletType) (ter : Time) (sv : bool) (rs : string) :
  mu (tqsc w) = false →
  (safe w → chan_full (StateChanges (tqsc w)) = true →
   ∃ w1 k,
     SetServingType ty ter sv rs w
       = Parked w1 (WaitStateChanges (mkStateChange sv ty)) k ∧
     mu (tqsc w1) = true) ∧
  (chan_full (BroadcastData_chan (tqsc w)) = true →
   ∃ w1 v k,
     BroadcastHealth w = Parked w1 (WaitBroadcastData v) k ∧
     mu (tqsc w1) = true) ∧
  (safe w →
   ∃ w' c' r,
     complete (SetServingType ty ter sv rs w) c = (Returned w' r, c') ∧
     mu (tqsc w') = false) ∧
  (∃ w' c',
     complete (BroadcastHealth w) c = (Returned w' tt, c') ∧
     mu (tqsc w') = false).
Proof.
  intros Hmu. split; [|split; [|split]].
  - intros Hs Hfull.
    destruct (SetServingType_parks w ty ter sv rs Hs Hfull) as (w1 & k & Hrun & Hmu1 & _).
    by exists w1, k.
  - intros Hfull.
    destruct (BroadcastHealth_parks w Hmu Hfull) as (w1 & k & Hrun & Hmu1).
    by eexists w1, _, k.
  - intros Hs.
    destruct (SetServingType_safe w c ty ter sv rs Hs) as (w' & c' & Hrun & [Hmu' _] & _).
    by eexists w', c', _.
  - destruct (BroadcastHealth_returns w c Hmu) as (w' & c' & Hrun & _ & _ & _ & _ & Hmu').
    by exists w', c'.
Qed.

(** * Further properties of the controller *)

Lemma World_eq (w1 w2 : World) :
  heap w1 = heap w2 → tqsc w1 = tqsc w2 → w1 = w2.
Proof. destruct w1, w2; cbn; by intros -> ->. Qed.

Lemma chan_after_send_cap {T} (v : T) (ch : chan T) :
  chan_cap (chan_after_send v ch) = chan_cap ch.
Proof.
  unfold chan_after_send, chan_recv_handoff.
  destruct (chan_full ch); [|done]. by destruct (chan_buf ch).
Qed.

Lemma chan_after_send_ok {T} (v : T) (ch : chan T) :
  chan_ok ch → chan_ok (chan_after_send v ch).
Proof.
  unfold chan_ok, chan_after_send, chan_full, chan_recv_handoff, chan_push.
  intros Hok. case_bool_decide as Hfull.
  - destruct (chan_buf ch) as [|x q] eqn:E; cbn in *; [by rewrite E|].
    rewrite length_app. cbn. lia.
  - cbn. rewrite length_app. cbn. lia.
Qed.

Lemma chan_after_send_room {T} (v : T) (ch : chan T) :
  chan_full ch = false → chan_after_send v ch = chan_push v ch.
Proof. unfold chan_after_send. by intros ->. Qed.

(** What a [SetServingType] call leaves behind, field by field. *)
Lemma SetServingType_failure_world w c ty ter sv rs e :
  mu (tqsc w) = false →
  SetServingTypeError (tqsc w) = Some e →
  ∃ w' c',
    complete (SetServingType ty ter sv rs w) c = (Returned w' (Some e), c') ∧
    heap w' = heap w ∧
    tqsc w' = set_isInLameduck false
                (set_StateChanges
                   (chan_after_send (mkStateChange sv ty) (StateChanges (tqsc w)))
                   (tqsc w)) ∧
    got_BroadcastData c' = got_BroadcastData c.
Proof.
  destruct w as [h [st bd sc tg e' ts m q l qr]]; cbn. intros -> ->.
  unfold_call. unfold chan_after_send.
  destruct (chan_full sc); cbn.
  - destruct (chan_recv_handoff _ _) as [x ch]. cbn. by eexists _, _.
  - by eexists _, _.
Qed.

Lemma SetServingType_success_world w c ty ter sv rs a t :
  mu (tqsc w) = false →
  SetServingTypeError (tqsc w) = None →
  target (tqsc w) = Some a →
  heap w !! a = Some t →
  ∃ w' c',
    complete (SetServingType ty ter sv rs w) c = (Returned w' None, c') ∧
    heap w' = <[a := mkTarget (Keyspace t) (Shard t) ty]> (heap w) ∧
    tqsc w' = set_isInLameduck false
                (set_StateChanges
                   (chan_after_send (mkStateChange sv ty) (StateChanges (tqsc w)))
                   (set_queryServiceEnabled sv (tqsc w))) ∧
    got_BroadcastData c' = got_BroadcastData c.
Proof.
  destruct w as [h [st bd sc tg e' ts m q l qr]]; cbn. intros -> -> -> Ht.
  unfold_call. rewrite Ht. cbn. unfold chan_after_send.
  destruct (chan_full sc); cbn.
  - destruct (chan_recv_handoff _ _) as [x ch]. cbn. by eexists _, _.
  - by eexists _, _.
Qed.

(** One call from a safe state, with everything it leaves alone. *)
Lemma SetServingType_safe_world w c ty ter sv rs :
  safe w →
  ∃ w' c',
    complete (SetServingType ty ter sv rs w) c
      = (Returned w' (SetServingTypeError (tqsc w)), c') ∧
    safe w' ∧
    StateChanges (tqsc w')
      = chan_after_send (mkStateChange sv ty) (StateChanges (tqsc w)) ∧
    target (tqsc w') = target (tqsc w) ∧
    SetServingTypeError (tqsc w') = SetServingTypeError (tqsc w) ∧
    BroadcastData_chan (tqsc w') = BroadcastData_chan (tqsc w) ∧
    queryRulesMap (tqsc w') = queryRulesMap (tqsc w) ∧
    TS (tqsc w') = TS (tqsc w) ∧
    stats (tqsc w') = stats (tqsc w) ∧
    got_BroadcastData c' = got_BroadcastData c.
Proof.
  intros Hs.
  destruct (SetServingType_safe w c ty ter sv rs Hs) as (w1 & c1 & Hrun1 & Hs1 & _).
  destruct Hs as [Hmu Hs].
  destruct (SetServingTypeError (tqsc w)) as [e|] eqn:He.
  - destruct (SetServingType_failure_world w c ty ter sv rs e Hmu He)
      as (w' & c' & Hrun & Hh & Hc & Hg).
    exists w', c'. split; [done|].
    rewrite Hrun in Hrun1. simplify_eq. split; [done|].
    rewrite Hc. by cbn.
  - destruct Hs as [|Hs]; [done|].
    destruct (target_stored_inv w Hs) as (a & t & Ha & Ht).
    destruct (SetServingType_success_world w c ty ter sv rs a t Hmu He Ha Ht)
      as (w' & c' & Hrun & Hh & Hc & Hg).
    exists w', c'. split; [done|].
    rewrite Hrun in Hrun1. simplify_eq. split; [done|].
    rewrite Hc. by cbn.
Qed.

Lemma BroadcastHealth_world w c :
  mu (tqsc w) = false →
  ∃ w' c',
    complete (BroadcastHealth w) c = (Returned w' tt, c') ∧
    heap w' = heap w ∧
    tqsc w' = set_BroadcastData_chan
                (chan_after_send
                   (mkBroadcastData 0 RealtimeStats_zero
                      (queryServiceEnabled (tqsc w) && negb (isInLameduck (tqsc w))))
                   (BroadcastData_chan (tqsc w)))
                (tqsc w) ∧
    got_StateChanges c' = got_StateChanges c.
Proof.
  destruct w as [h [st bd sc tg e' ts m q l qr]]; cbn. intros ->.
  unfold_call. unfold chan_after_send.
  destruct (chan_full bd); cbn.
  - destruct (chan_recv_handoff _ _) as [x ch]. cbn. by eexists _, _.
  - by eexists _, _.
Qed.

Lemma SetQueryServiceEnabledForTests_returns w b :
  mu (tqsc w) = false →
  ∃ w',
    SetQueryServiceEnabledForTests b w = Returned w' tt ∧
    heap w' = heap w ∧
    tqsc w' = set_queryServiceEnabled b (tqsc w).
Proof.
  intros Hmu. unfold_call. rewrite Hmu. cbn.
  eexists. split; [done|]. split; [done|]. cbn.
  destruct (tqsc w); cbn in *; by subst.
Qed.

Lemma set_target_twice (p q : option addr) (t : Controller) :
  set_target q (set_target p t) = set_target q t.
Proof. by destruct t. Qed.

Lemma receive_StateChanges_chan w c :
  chan_ok (StateChanges (tqsc w)) →
  chan_ok (StateChanges (tqsc (receive_StateChanges w c).1)) ∧
  chan_cap (StateChanges (tqsc (receive_StateChanges w c).1))
    = chan_cap (StateChanges (tqsc w)) ∧
  BroadcastData_chan (tqsc (receive_StateChanges w c).1)
    = BroadcastData_chan (tqsc w).
Proof.
  unfold receive_StateChanges, chan_recv, chan_ok.
  destruct (chan_buf (StateChanges (tqsc w))) as [|x q] eqn:E; cbn.
  - by rewrite E.
  - intros Hok. split; [lia|done].
Qed.

Lemma run_chan_ok acts : ∀ w c,
  safe w →
  chan_ok (StateChanges (tqsc w)) →
  ∃ w' c',
    run acts w c = (Returned w' tt, c') ∧
    chan_ok (StateChanges (tqsc w')) ∧
    chan_cap (StateChanges (tqsc w')) = chan_cap (StateChanges (tqsc w)) ∧
    BroadcastData_chan (tqsc w') = BroadcastData_chan (tqsc w).
Proof.
  induction acts as [|[ty ter sv rs|] rest IH]; intros w c Hs Hok; cbn [run].
  - by exists w, c.
  - destruct (SetServingType_safe_world w c ty ter sv rs Hs)
      as (w1 & c1 & Hrun & Hs1 & Hsc & _ & _ & Hbd & _). rewrite Hrun.
    destruct (IH w1 c1 Hs1) as (w' & c' & Hrun' & Hok' & Hcap' & Hbd').
    { rewrite Hsc. by apply chan_after_send_ok. }
    exists w', c'. split; [done|]. split; [done|].
    rewrite Hcap', Hbd', Hsc, Hbd. by rewrite chan_after_send_cap.
  - pose proof (receive_StateChanges_safe w c Hs) as Hs1.
    destruct (receive_StateChanges_chan w c Hok) as (Hok1 & Hcap1 & Hbd1).
    destruct (receive_StateChanges w c) as [w1 c1]. cbn in *.
    destruct (IH w1 c1 Hs1 Hok1) as (w' & c' & Hrun' & Hok' & Hcap' & Hbd').
    exists w', c'. split; [done|]. split; [done|]. by rewrite Hcap', Hbd'.
Qed.

(** X1. [SetQueryServiceEnabledForTests] writes the serving flag and nothing
    else: [IsServing] then returns the flag, but lameduck is as it was, so
    the next broadcast is still suppressed on a controller in lameduck. *)
Theorem SetQueryServiceEnabledForTests_only_flag (w : World) (c : Consumer)
    (b : bool) :
  mu (tqsc w) = false →
  ∃ w',
    SetQueryServiceEnabledForTests b w = Returned w' tt ∧
    heap w' = heap w ∧
    tqsc w' = set_queryServiceEnabled b (tqsc w) ∧
    result (IsServing w') = Some b ∧
    ∃ w'' c',
      complete (BroadcastHealth w') c = (Returned w'' tt, c') ∧
      stream_BroadcastData w'' c'
        = stream_BroadcastData w c ++
          [mkBroadcastData 0 RealtimeStats_zero (b && negb (isInLameduck (tqsc w)))].
Proof.
  intros Hmu.
  destruct (SetQueryServiceEnabledForTests_returns w b Hmu) as (w' & Hrun & Hh & Hc).
  assert (mu (tqsc w') = false) as Hmu' by (by rewrite Hc).
  exists w'. split; [done|]. split; [done|]. split; [done|]. split.
  { destruct (IsServing_returns w' Hmu') as (w'' & -> & _). cbn. by rewrite Hc. }
  destruct (BroadcastHealth_returns w' c Hmu') as (w'' & c' & Hrun' & Hst & _).
  exists w'', c'. split; [done|]. rewrite Hst. unfold stream_BroadcastData.
  by rewrite Hc.
Qed.

(** X2. After [EnterLameduck], a [SetServingType] call lifts the
    suppression: the next broadcast carries the serving flag as the call
    left it, which is the call's argument when no failure is injected and
    the old flag when one is. *)
Theorem SetServingType_lifts_lameduck (w : World) (c : Consumer)
    (ty : TabletType) (ter : Time) (sv : bool) (rs : string) :
  safe w →
  ∃ w1 w2 c2 w3 c3,
    EnterLameduck w = Returned w1 tt ∧
    complete (SetServingType ty ter sv rs w1) c
      = (Returned w2 (SetServingTypeError (tqsc w)), c2) ∧
    complete (BroadcastHealth w2) c2 = (Returned w3 tt, c3) ∧
    stream_BroadcastData w3 c3
      = stream_BroadcastData w c ++
        [mkBroadcastData 0 RealtimeStats_zero
           (match SetServingTypeError (tqsc w) with
            | None => sv
            | Some _ => queryServiceEnabled (tqsc w)
            end)].
Proof.
  intros [Hmu Hs].
  destruct (EnterLameduck_returns w Hmu) as (w1 & Hrun1 & Hh1 & Hc1).
  assert (mu (tqsc w1) = false) as Hmu1 by (by rewrite Hc1).
  assert (∃ w2 c2,
    complete (SetServingType ty ter sv rs w1) c
      = (Returned w2 (SetServingTypeError (tqsc w)), c2) ∧
    mu (tqsc w2) = false ∧
    isInLameduck (tqsc w2) = false ∧
    queryServiceEnabled (tqsc w2)
      = match SetServingTypeError (tqsc w) with
        | None => sv
        | Some _ => queryServiceEnabled (tqsc w)
        end ∧
    BroadcastData_chan (tqsc w2) = BroadcastData_chan (tqsc w) ∧
    got_BroadcastData c2 = got_BroadcastData c) as (w2 & c2 & Hrun2 & Hmu2 & Hl2 & Hq2 & Hbd & Hg).
  { destruct (SetServingTypeError (tqsc w)) as [e|] eqn:He.
    - destruct (SetServingType_failure_world w1 c ty ter sv rs e Hmu1)
        as (w2 & c2 & Hrun & Hh & Hc & Hg); [by rewrite Hc1|].
      exists w2, c2. split; [done|]. rewrite Hc, Hc1. by cbn.
    - destruct Hs as [|Hs]; [done|].
      destruct (target_stored_inv w Hs) as (a & t & Ha & Ht).
      destruct (SetServingType_success_world w1 c ty ter sv rs a t Hmu1)
        as (w2 & c2 & Hrun & Hh & Hc & Hg); [by rewrite Hc1..|by rewrite Hh1|].
      exists w2, c2. split; [done|]. rewrite Hc, Hc1. by cbn. }
  destruct (BroadcastHealth_returns w2 c2 Hmu2) as (w3 & c3 & Hrun3 & Hst & _).
  exists w1, w2, c2, w3, c3. split; [done|]. split; [done|]. split; [done|].
  rewrite Hst. unfold stream_BroadcastData.
  by rewrite Hl2, Hq2, Hbd, Hg, andb_true_r.
Qed.

(** X3. [InitDBConfig] with a nil target stores nil, whatever was stored
    before: [CurrentTarget] then returns nil, and a [SetServingType] call
    with no failure injected panics, with the mutex released. *)
Theorem InitDBConfig_nil_clears_target (w : World) (dbcfgs : option DBConfigs)
    (daemon : option MysqlDaemon) (ty : TabletType) (ter : Time) (sv : bool)
    (rs : string) :
  mu (tqsc w) = false →
  SetServingTypeError (tqsc w) = None →
  ∃ w1,
    InitDBConfig None dbcfgs daemon w = Returned w1 None ∧
    (∃ w2, CurrentTarget w1 = Returned w2 None) ∧
    (∃ w3,
       SetServingType ty ter sv rs w1 = Panicked w3 ∧
       mu (tqsc w3) = false).
Proof.
  intros Hmu He.
  destruct (InitDBConfig_nil w dbcfgs daemon Hmu) as (w1 & Hrun & Hh & Hc).
  assert (mu (tqsc w1) = false) as Hmu1 by (by rewrite Hc).
  exists w1. split; [done|]. split.
  - destruct (CurrentTarget_nil w1 Hmu1) as (w2 & Hrun2 & _); [by rewrite Hc|].
    by exists w2.
  - destruct (SetServingType_nil_target w1 ty ter sv rs Hmu1)
      as (w3 & Hrun3 & _ & Hc3); [by rewrite Hc..|].
    exists w3. split; [done|]. by rewrite Hc3.
Qed.

(** X4. [SetServingType] writes the controller's own copy only: after
    [InitDBConfig] with a message and a [SetServingType] call, the caller's
    message and every other message are what they were, and the
    controller's copy has the caller's keyspace and shard with the call's
    tablet type. *)
Theorem SetServingType_private_copy (w : World) (c : Consumer) (p : addr)
    (t : Target) (dbcfgs : option DBConfigs) (daemon : option MysqlDaemon)
    (ty : TabletType) (ter : Time) (sv : bool) (rs : string) :
  mu (tqsc w) = false →
  SetServingTypeError (tqsc w) = None →
  heap w !! p = Some t →
  ∃ w1 w2 c',
    InitDBConfig (Some p) dbcfgs daemon w = Returned w1 None ∧
    complete (SetServingType ty ter sv rs w1) c = (Returned w2 None, c') ∧
    heap w2 !! p = Some t ∧
    deref w2 (target (tqsc w2)) = Some (mkTarget (Keyspace t) (Shard t) ty) ∧
    ∀ b u, heap w !! b = Some u → heap w2 !! b = Some u.
Proof.
  intros Hmu He Ht.
  destruct (InitDBConfig_some w p t dbcfgs daemon Hmu Ht)
    as (w1 & a1 & Hrun1 & Hfresh & Hh1 & Hc1).
  destruct (SetServingType_success_world w1 c ty ter sv rs a1 t)
    as (w2 & c' & Hrun2 & Hh2 & Hc2 & _); [by rewrite Hc1..| |].
  { by rewrite Hh1, lookup_insert_eq. }
  assert (∀ b u, heap w !! b = Some u → heap w2 !! b = Some u) as Hframe.
  { intros b u Hb. assert (a1 ≠ b) by (intros ->; congruence).
    by rewrite Hh2, Hh1, !lookup_insert_ne. }
  exists w1, w2, c'. split; [done|]. split; [done|]. split; [by apply Hframe|].
  split; [|done].
  unfold deref. rewrite Hc2, Hc1. cbn. by rewrite Hh2, lookup_insert_eq.
Qed.

(** X5. Each [CurrentTarget] call returns a message of its own: two calls
    in a row give two different pointers, both different from the
    controller's, to equal messages; the controller and the messages that
    existed before are untouched. *)
Theorem CurrentTarget_fresh_each_time (w : World) (a : addr) (t : Target) :
  mu (tqsc w) = false →
  target (tqsc w) = Some a →
  heap w !! a = Some t →
  ∃ w1 a1 w2 a2,
    CurrentTarget w = Returned w1 (Some a1) ∧
    CurrentTarget w1 = Returned w2 (Some a2) ∧
    a1 ≠ a2 ∧ a1 ≠ a ∧ a2 ≠ a ∧
    heap w2 !! a1 = Some t ∧
    heap w2 !! a2 = Some t ∧
    tqsc w2 = tqsc w ∧
    ∀ b u, heap w !! b = Some u → heap w2 !! b = Some u.
Proof.
  intros Hmu Ha Ht.
  destruct (CurrentTarget_some w a t Hmu Ha Ht) as (w1 & a1 & Hrun1 & Hf1 & Hh1 & Hc1).
  assert (a1 ≠ a) as Hne1 by (intros ->; congruence).
  destruct (CurrentTarget_some w1 a t) as (w2 & a2 & Hrun2 & Hf2 & Hh2 & Hc2);
    [by rewrite Hc1..| |].
  { by rewrite Hh1, lookup_insert_ne. }
  assert (a2 ≠ a1) as Hne21.
  { intros ->. by rewrite Hh1, lookup_insert_eq in Hf2. }
  assert (a2 ≠ a) as Hne2.
  { intros ->. rewrite Hh1, lookup_insert_ne in Hf2 by done. congruence. }
  exists w1, a1, w2, a2. repeat split; try done.
  - by rewrite Hh2, lookup_insert_ne, Hh1, lookup_insert_eq.
  - by rewrite Hh2, lookup_insert_eq.
  - by rewrite Hc2.
  - intros b u Hb.
    assert (a1 ≠ b) by (intros ->; congruence).
    assert (a2 ≠ b).
    { intros ->. rewrite Hh1, lookup_insert_ne in Hf2 by done. congruence. }
    by rewrite Hh2, Hh1, !lookup_insert_ne.
Qed.

(** X6. [InitDBConfig] replaces the target and touches nothing else: after
    two calls the controller holds a copy of the second message and every
    other field is what it was before the first; the messages that existed
    are untouched. *)
Theorem InitDBConfig_replaces_target (w : World) (p q : addr) (t u : Target)
    (dbcfgs dbcfgs' : option DBConfigs) (daemon daemon' : option MysqlDaemon) :
  mu (tqsc w) = false →
  heap w !! p = Some t →
  heap w !! q = Some u →
  ∃ w1 w2 a2,
    InitDBConfig (Some p) dbcfgs daemon w = Returned w1 None ∧
    InitDBConfig (Some q) dbcfgs' daemon' w1 = Returned w2 None ∧
    tqsc w2 = set_target (Some a2) (tqsc w) ∧
    heap w2 !! a2 = Some u ∧
    heap w !! a2 = None ∧
    ∀ b v, heap w !! b = Some v → heap w2 !! b = Some v.
Proof.
  intros Hmu Ht Hu.
  destruct (InitDBConfig_some w p t dbcfgs daemon Hmu Ht)
    as (w1 & a1 & Hrun1 & Hf1 & Hh1 & Hc1).
  assert (a1 ≠ q) as Hne1 by (intros ->; congruence).
  destruct (InitDBConfig_some w1 q u dbcfgs' daemon') as (w2 & a2 & Hrun2 & Hf2 & Hh2 & Hc2).
  { by rewrite Hc1. }
  { by rewrite Hh1, lookup_insert_ne. }
  assert (a2 ≠ a1) as Hne21.
  { intros ->. by rewrite Hh1, lookup_insert_eq in Hf2. }
  assert (heap w !! a2 = None) as Hf2'.
  { by rewrite Hh1, lookup_insert_ne in Hf2. }
  exists w1, w2, a2. repeat split; try done.
  - by rewrite Hc2, Hc1, set_target_twice.
  - by rewrite Hh2, lookup_insert_eq.
  - intros b v Hb.
    assert (a1 ≠ b) by (intros ->; congruence).
    assert (a2 ≠ b) by (intros ->; congruence).
    by rewrite Hh2, Hh1, !lookup_insert_ne.
Qed.

Lemma events_calls_only acts :
  calls_only acts = true → length (events acts) = length acts.
Proof.
  induction acts as [|[ty ter sv rs|] rest IH]; cbn; [done| |done].
  intros Hc. by rewrite IH.
Qed.

Lemma run_within_capacity acts : ∀ w c,
  safe w →
  calls_only acts = true →
  length (chan_buf (StateChanges (tqsc w))) + length acts
    ≤ chan_cap (StateChanges (tqsc w)) →
  ∃ w',
    run acts w c = (Returned w' tt, c) ∧
    safe w' ∧
    chan_cap (StateChanges (tqsc w')) = chan_cap (StateChanges (tqsc w)) ∧
    chan_buf (StateChanges (tqsc w'))
      = chan_buf (StateChanges (tqsc w)) ++ events acts.
Proof.
  induction acts as [|[ty ter sv rs|] rest IH]; intros w c Hs Hc Hlen;
    cbn [run events].
  - exists w. by rewrite app_nil_r.
  - cbn in Hc, Hlen.
    assert (chan_full (StateChanges (tqsc w)) = false) as Hroom.
    { unfold chan_full. apply bool_decide_eq_false. lia. }
    destruct (SetServingType_room w ty ter sv rs Hs Hroom) as (w1 & Hrun & Hb & _).
    destruct (SetServingType_safe_world w c ty ter sv rs Hs)
      as (w1' & c1 & Hrun' & Hs1 & Hsc & _).
    rewrite Hrun in Hrun'. cbn in Hrun'. simplify_eq.
    rewrite Hrun. cbn [complete].
    assert (chan_cap (StateChanges (tqsc w1')) = chan_cap (StateChanges (tqsc w)))
      as Hcap by (by rewrite Hsc, chan_after_send_cap).
    destruct (IH w1' c1 Hs1 Hc) as (w' & Hrun2 & Hs2 & Hcap2 & Hb2).
    { rewrite Hb, Hcap, length_app. cbn. lia. }
    exists w'. split; [done|]. split; [done|]. split; [congruence|].
    by rewrite Hb2, Hb, <- app_assoc.
  - done.
Qed.

(** X7. While the state-change channel has room for them, [SetServingType]
    calls return without anybody reading the channel: the test has read
    nothing and the buffer holds the events of the calls, in order, after
    what it held. *)
Theorem calls_within_capacity_need_no_reader (acts : list action) (w : World)
    (c : Consumer) :
  safe w →
  calls_only acts = true →
  length (chan_buf (StateChanges (tqsc w))) + length acts
    ≤ chan_cap (StateChanges (tqsc w)) →
  ∃ w',
    run acts w c = (Returned w' tt, c) ∧
    chan_buf (StateChanges (tqsc w'))
      = chan_buf (StateChanges (tqsc w)) ++ events acts.
Proof.
  intros Hs Hc Hlen.
  destruct (run_within_capacity acts w c Hs Hc Hlen) as (w' & Hrun & _ & _ & Hb).
  by exists w'.
Qed.

(** X8. Neither channel ever holds more than its capacity, and the
    capacities stay what [NewController] made them: both are kept by every
    test of [SetServingType] calls and reads, and by [BroadcastHealth]. *)
Theorem channel_bounds_kept (acts : list action) (w : World) (c : Consumer) :
  safe w →
  chan_ok (StateChanges (tqsc w)) →
  chan_ok (BroadcastData_chan (tqsc w)) →
  (∃ w' c',
     run acts w c = (Returned w' tt, c') ∧
     chan_ok (StateChanges (tqsc w')) ∧
     chan_cap (StateChanges (tqsc w')) = chan_cap (StateChanges (tqsc w)) ∧
     BroadcastData_chan (tqsc w') = BroadcastData_chan (tqsc w)) ∧
  (∃ w' c',
     complete (BroadcastHealth w) c = (Returned w' tt, c') ∧
     chan_ok (BroadcastData_chan (tqsc w')) ∧
     chan_cap (BroadcastData_chan (tqsc w')) = chan_cap (BroadcastData_chan (tqsc w)) ∧
     StateChanges (tqsc w') = StateChanges (tqsc w)).
Proof.
  intros Hs Hsc Hbd. split.
  - by apply run_chan_ok.
  - destruct (BroadcastHealth_world w c (proj1 Hs)) as (w' & c' & Hrun & _ & Hc & _).
    exists w', c'. split; [done|]. rewrite Hc. cbn.
    split; [by apply chan_after_send_ok|]. by rewrite chan_after_send_cap.
Qed.

(** X9. Which methods take the mutex.  While it is held, each of
    [InitDBConfig], [SetServingType], [IsServing], [CurrentTarget],
    [SetQueryRules], [BroadcastHealth], [EnterLameduck],
    [SetQueryServiceEnabledForTests] and [GetQueryRules] is parked on it with
    the world untouched; the others return at once, whoever holds it:
    [IsHealthy], [ReloadSchema], [QueryService] and [SchemaEngine] with nil,
    [TopoServer] and [Stats] with the field, and the empty methods with the
    world as it was. *)
Theorem lock_discipline (w : World) (tgt : option addr)
    (dbcfgs : option DBConfigs) (daemon : option MysqlDaemon)
    (ty : TabletType) (ter : Time) (sv : bool) (rs : string) (ctx : Context)
    (src : string) (qrs : option Rules) :
  mu (tqsc w) = true →
  ((∃ k, InitDBConfig tgt dbcfgs daemon w = Parked w WaitMutex k) ∧
   (∃ k, SetServingType ty ter sv rs w = Parked w WaitMutex k) ∧
   (∃ k, IsServing w = Parked w WaitMutex k) ∧
   (∃ k, CurrentTarget w = Parked w WaitMutex k) ∧
   (∃ k, SetQueryRules src qrs w = Parked w WaitMutex k) ∧
   (∃ k, BroadcastHealth w = Parked w WaitMutex k) ∧
   (∃ k, EnterLameduck w = Parked w WaitMutex k) ∧
   (∃ k, SetQueryServiceEnabledForTests sv w = Parked w WaitMutex k) ∧
   (∃ k, GetQueryRules src w = Parked w WaitMutex k)) ∧
  (IsHealthy w = Returned w None ∧
   ReloadSchema ctx w = Returned w None ∧
   QueryService_ w = Returned w None ∧
   SchemaEngine_ w = Returned w None ∧
   TopoServer_ w = Returned w (TS (tqsc w)) ∧
   Stats_ w = Returned w (stats (tqsc w)) ∧
   Register w = Returned w tt ∧
   AddStatusHeader w = Returned w tt ∧
   AddStatusPart w = Returned w tt ∧
   ClearQueryPlanCache w = Returned w tt ∧
   RegisterQueryRuleSource src w = Returned w tt ∧
   UnRegisterQueryRuleSource src w = Returned w tt).
Proof.
  intros Hmu. split.
  - repeat split; unfold_call; rewrite Hmu; cbn; by eexists.
  - by repeat split.
Qed.

(** X10. The mutex is released on every way out of [SetServingType]: from
    a free mutex the call ends by returning or by panicking, never parked
    for good once the test reads, and in both cases the mutex is free
    again, so that the next call gets through. *)
Theorem mutex_released_on_every_exit (w : World) (c : Consumer)
    (ty : TabletType) (ter : Time) (sv : bool) (rs : string) :
  mu (tqsc w) = false →
  ∃ w' c',
    ((∃ r, complete (SetServingType ty ter sv rs w) c = (Returned w' r, c')) ∨
     complete (SetServingType ty ter sv rs w) c = (Panicked w', c')) ∧
    mu (tqsc w') = false ∧
    ∃ w'', EnterLameduck w' = Returned w'' tt.
Proof.
  intros Hmu.
  assert (∃ w' c',
    ((∃ r, complete (SetServingType ty ter sv rs w) c = (Returned w' r, c')) ∨
     complete (SetServingType ty ter sv rs w) c = (Panicked w', c')) ∧
    mu (tqsc w') = false) as (w' & c' & Hrun & Hmu').
  { destruct (SetServingTypeError (tqsc w)) as [e|] eqn:He.
    { destruct (SetServingType_safe w c ty ter sv rs) as (w' & c' & Hrun & [Hmu' _] & _).
      { split; [done|]. left. by rewrite He. }
      exists w', c'. split; [|done]. left. by eexists. }
    destruct (target (tqsc w)) as [a|] eqn:Ha.
    - destruct (heap w !! a) as [t|] eqn:Ht.
      + destruct (SetServingType_safe w c ty ter sv rs) as (w' & c' & Hrun & [Hmu' _] & _).
        { split; [done|]. right. unfold target_stored, deref. rewrite Ha. cbn.
          rewrite Ht. by eexists. }
        exists w', c'. split; [|done]. left. by eexists.
      + unfold_call. rewrite Hmu. cbn. rewrite He. cbn. rewrite Ha. cbn.
        rewrite Ht. cbn. eexists _, _. split; [by right|]. done.
    - destruct (SetServingType_nil_target w ty ter sv rs Hmu He Ha)
        as (w' & Hrun & _ & Hc).
      exists w', c. rewrite Hrun. cbn. split; [by right|]. by rewrite Hc. }
  exists w', c'. split; [done|]. split; [done|].
  destruct (EnterLameduck_returns w' Hmu') as (w'' & Hrun'' & _).
  by exists w''.
Qed.

(** X11. [SetQueryRules] on two different sources commute: either order
    ends in the same world, and that world differs from the first one in
    the rule map only. *)
Theorem SetQueryRules_commute (w : World) (src1 src2 : string)
    (R1 R2 : option Rules) :
  mu (tqsc w) = false →
  src1 ≠ src2 →
  ∃ wa wb w',
    SetQueryRules src1 R1 w = Returned wa None ∧
    SetQueryRules src2 R2 wa = Returned w' None ∧
    SetQueryRules src2 R2 w = Returned wb None ∧
    SetQueryRules src1 R1 wb = Returned w' None ∧
    heap w' = heap w ∧
    tqsc w' = set_queryRulesMap
                (<[src2 := R2]> (<[src1 := R1]> (queryRulesMap (tqsc w)))) (tqsc w).
Proof.
  intros Hmu Hne.
  destruct (SetQueryRules_returns w src1 R1 Hmu) as (wa & Hra & Hha & Hca).
  destruct (SetQueryRules_returns wa src2 R2) as (w' & Hr' & Hh' & Hc'); [by rewrite Hca|].
  destruct (SetQueryRules_returns w src2 R2 Hmu) as (wb & Hrb & Hhb & Hcb).
  destruct (SetQueryRules_returns wb src1 R1) as (w'' & Hr'' & Hh'' & Hc''); [by rewrite Hcb|].
  assert (tqsc w' = set_queryRulesMap
            (<[src2 := R2]> (<[src1 := R1]> (queryRulesMap (tqsc w)))) (tqsc w)) as Hw'.
  { rewrite Hc', Hca. by destruct (tqsc w). }
  assert (w'' = w') as ->.
  { apply World_eq; [congruence|]. rewrite Hw', Hc'', Hcb.
    destruct (tqsc w); unfold set_queryRulesMap; cbn. f_equal.
    by apply insert_insert_ne. }
  exists wa, wb, w'. repeat split; try done. congruence.
Qed.

(** X12. [SetServingType] leaves alone what it has no business with: the
    rule map, the broadcast channel and what was read from it, the topology
    server, the stats, the injected failure, the target pointer and the
    capacity of the state-change channel. *)
Theorem SetServingType_frame (w : World) (c : Consumer)
    (ty : TabletType) (ter : Time) (sv : bool) (rs : string) :
  safe w →
  ∃ w' c',
    complete (SetServingType ty ter sv rs w) c
      = (Returned w' (SetServingTypeError (tqsc w)), c') ∧
    queryRulesMap (tqsc w') = queryRulesMap (tqsc w) ∧
    BroadcastData_chan (tqsc w') = BroadcastData_chan (tqsc w) ∧
    got_BroadcastData c' = got_BroadcastData c ∧
    TS (tqsc w') = TS (tqsc w) ∧
    stats (tqsc w') = stats (tqsc w) ∧
    SetServingTypeError (tqsc w') = SetServingTypeError (tqsc w) ∧
    target (tqsc w') = target (tqsc w) ∧
    chan_cap (StateChanges (tqsc w')) = chan_cap (StateChanges (tqsc w)).
Proof.
  intros Hs.
  destruct (SetServingType_safe_world w c ty ter sv rs Hs)
    as (w' & c' & Hrun & _ & Hsc & Ht & He & Hbd & Hqr & Hts & Hst & Hg).
  exists w', c'. repeat split; try done.
  by rewrite Hsc, chan_after_send_cap.
Qed.

(** X13. [BroadcastHealth] changes nothing but its channel: two calls in
    a row send the same value twice, and the messages, the serving flag,
    the lameduck flag, and the state-change channel are what they were. *)
Theorem BroadcastHealth_twice (w : World) (c : Consumer) :
  mu (tqsc w) = false →
  ∃ w1 c1 w2 c2,
    complete (BroadcastHealth w) c = (Returned w1 tt, c1) ∧
    complete (BroadcastHealth w1) c1 = (Returned w2 tt, c2) ∧
    stream_BroadcastData w2 c2
      = stream_BroadcastData w c ++
        replicate 2
          (mkBroadcastData 0 RealtimeStats_zero
             (queryServiceEnabled (tqsc w) && negb (isInLameduck (tqsc w)))) ∧
    heap w2 = heap w ∧
    queryServiceEnabled (tqsc w2) = queryServiceEnabled (tqsc w) ∧
    isInLameduck (tqsc w2) = isInLameduck (tqsc w) ∧
    StateChanges (tqsc w2) = StateChanges (tqsc w) ∧
    got_StateChanges c2 = got_StateChanges c.
Proof.
  intros Hmu.
  destruct (BroadcastHealth_returns w c Hmu)
    as (w1 & c1 & Hrun1 & Hst1 & Hh1 & Hq1 & Hl1 & Hmu1).
  destruct (BroadcastHealth_world w c Hmu) as (w1' & c1' & Hrun1' & _ & Hc1 & Hg1).
  rewrite Hrun1 in Hrun1'. simplify_eq.
  destruct (BroadcastHealth_returns w1' c1' Hmu1)
    as (w2 & c2 & Hrun2 & Hst2 & Hh2 & Hq2 & Hl2 & Hmu2).
  destruct (BroadcastHealth_world w1' c1' Hmu1) as (w2' & c2' & Hrun2' & _ & Hc2 & Hg2).
  rewrite Hrun2 in Hrun2'. simplify_eq.
  exists w1', c1', w2', c2'. split; [done|]. split; [done|].
  split. { rewrite Hst2, Hst1, Hq1, Hl1. by rewrite <- app_assoc. }
  split; [congruence|]. split; [congruence|]. split; [congruence|].
  split; [|congruence]. rewrite Hc2, Hc1. by cbn.
Qed.

(** X14. Only [SetServingType] ends lameduck: once [isInLameduck] is set,
    it is still set after [InitDBConfig], [SetQueryRules],
    [SetQueryServiceEnabledForTests], [BroadcastHealth] and a second
    [EnterLameduck]. *)
Theorem lameduck_sticky (w : World) (c : Consumer) (tgt : option addr)
    (dbcfgs : option DBConfigs) (daemon : option MysqlDaemon) (b : bool)
    (src : string) (qrs : option Rules) :
  mu (tqsc w) = false →
  isInLameduck (tqsc w) = true →
  valid_ptr w tgt →
  (∃ w', InitDBConfig tgt dbcfgs daemon w = Returned w' None ∧
         isInLameduck (tqsc w') = true) ∧
  (∃ w', SetQueryRules src qrs w = Returned w' None ∧
         isInLameduck (tqsc w') = true) ∧
  (∃ w', SetQueryServiceEnabledForTests b w = Returned w' tt ∧
         isInLameduck (tqsc w') = true) ∧
  (∃ w' c', complete (BroadcastHealth w) c = (Returned w' tt, c') ∧
            isInLameduck (tqsc w') = true) ∧
  (∃ w', EnterLameduck w = Returned w' tt ∧
         isInLameduck (tqsc w') = true).
Proof.
  intros Hmu Hl Hp. repeat split.
  - destruct tgt as [a|].
    + destruct Hp as [t Ht].
      destruct (InitDBConfig_some w a t dbcfgs daemon Hmu Ht) as (w' & a' & Hrun & _ & _ & Hc).
      exists w'. split; [done|]. by rewrite Hc.
    + destruct (InitDBConfig_nil w dbcfgs daemon Hmu) as (w' & Hrun & _ & Hc).
      exists w'. split; [done|]. by rewrite Hc.
  - destruct (SetQueryRules_returns w src qrs Hmu) as (w' & Hrun & _ & Hc).
    exists w'. split; [done|]. by rewrite Hc.
  - destruct (SetQueryServiceEnabledForTests_returns w b Hmu) as (w' & Hrun & _ & Hc).
    exists w'. split; [done|]. by rewrite Hc.
  - destruct (BroadcastHealth_returns w c Hmu) as (w' & c' & Hrun & _ & _ & _ & Hl' & _).
    exists w', c'. split; [done|]. by rewrite Hl'.
  - destruct (EnterLameduck_returns w Hmu) as (w' & Hrun & _ & Hc).
    exists w'. split; [done|]. by rewrite Hc.
Qed.

Lemma run_failing acts : ∀ w c e,
  mu (tqsc w) = false →
  SetServingTypeError (tqsc w) = Some e →
  ∃ w' c',
    run acts w c = (Returned w' tt, c') ∧
    heap w' = heap w ∧
    target (tqsc w') = target (tqsc w) ∧
    queryServiceEnabled (tqsc w') = queryServiceEnabled (tqsc w) ∧
    isInLameduck (tqsc w')
      = match events acts with [] => isInLameduck (tqsc w) | _ => false end ∧
    stream_StateChanges w' c' = stream_StateChanges w c ++ events acts.
Proof.
  induction acts as [|[ty ter sv rs|] rest IH]; intros w c e Hmu He;
    cbn [run events].
  - exists w, c. by rewrite app_nil_r.
  - destruct (SetServingType_failure w c ty ter sv rs e Hmu He)
      as (w1 & c1 & Hrun & Hh & Ht & Hq & Hl & Hmu1 & He1 & Hst). rewrite Hrun.
    destruct (IH w1 c1 e Hmu1 He1) as (w' & c' & Hrun' & Hh' & Ht' & Hq' & Hl' & Hst').
    exists w', c'. split; [done|]. repeat split; try congruence.
    + rewrite Hl', Hl. by destruct (events rest).
    + by rewrite Hst', Hst, <- app_assoc.
  - destruct (receive_StateChanges_frame w c) as (Hh & Hmu1 & He1 & Ht & Hq & Hl).
    pose proof (receive_StateChanges_stream w c) as Hst.
    destruct (receive_StateChanges w c) as [w1 c1]. cbn in *.
    destruct (IH w1 c1 e) as (w' & c' & Hrun' & Hh' & Ht' & Hq' & Hl' & Hst');
      [congruence..|].
    exists w', c'. split; [done|]. repeat split; try congruence.
    by rewrite Hl', Hl.
Qed.

(** X15. While a failure is injected the serving state is frozen: over any
    test of [SetServingType] calls and reads, the messages, the target
    pointer and [queryServiceEnabled] stay what they were, every attempt is
    on the channel in call order, and lameduck is off as soon as there was
    one attempt. *)
Theorem injected_failure_freezes_state (acts : list action) (w : World)
    (c : Consumer) (e : ErrorValue) :
  mu (tqsc w) = false →
  SetServingTypeError (tqsc w) = Some e →
  ∃ w' c',
    run acts w c = (Returned w' tt, c') ∧
    heap w' = heap w ∧
    target (tqsc w') = target (tqsc w) ∧
    result (IsServing w') = Some (queryServiceEnabled (tqsc w)) ∧
    tablet_type_of w' = tablet_type_of w ∧
    stream_StateChanges w' c' = stream_StateChanges w c ++ events acts ∧
    (events acts ≠ [] → isInLameduck (tqsc w') = false).
Proof.
  intros Hmu He.
  destruct (run_failing acts w c e Hmu He)
    as (w' & c' & Hrun & Hh & Ht & Hq & Hl & Hst).
  assert (mu (tqsc w') = false) as Hmu'.
  { destruct (run_safe acts w c) as (w1 & c1 & Hrun1 & [Hmu1 _] & _).
    { split; [done|]. left. by rewrite He. }
    rewrite Hrun in Hrun1. by simplify_eq. }
  exists w', c'. split; [done|]. repeat split; try done.
  - destruct (IsServing_returns w' Hmu') as (w'' & -> & _). cbn. by rewrite Hq.
  - unfold tablet_type_of, deref. by rewrite Ht, Hh.
  - intros Hne. rewrite Hl. by destruct (events acts).
Qed.

(** X16. The state-change channel of a controller from [NewController]
    takes ten events: after [InitDBConfig], ten [SetServingType] calls
    return with nobody reading, and the eleventh is parked on the send,
    holding the mutex. *)
Theorem new_controller_takes_ten (st : Stats) (p : addr) (t : Target)
    (dbcfgs : option DBConfigs) (daemon : option MysqlDaemon)
    (acts : list action) (c : Consumer)
    (ty : TabletType) (ter : Time) (sv : bool) (rs : string) :
  calls_only acts = true →
  length acts = 10 →
  ∃ w1 w2,
    InitDBConfig (Some p) dbcfgs daemon (caller_writes p t (initial_world st))
      = Returned w1 None ∧
    run acts w1 c = (Returned w2 tt, c) ∧
    chan_buf (StateChanges (tqsc w2)) = events acts ∧
    ∃ w3 k,
      SetServingType ty ter sv rs w2
        = Parked w3 (WaitStateChanges (mkStateChange sv ty)) k ∧
      mu (tqsc w3) = true.
Proof.
  intros Hc Hlen.
  destruct (InitDBConfig_some (caller_writes p t (initial_world st)) p t dbcfgs daemon)
    as (w1 & a1 & Hrun1 & _ & Hh1 & Hc1); [done|by apply lookup_insert_eq|].
  assert (safe w1) as Hs1.
  { split; [by rewrite Hc1|]. right. unfold target_stored, deref.
    rewrite Hc1, Hh1. cbn. rewrite lookup_insert_eq. by eexists. }
  destruct (run_within_capacity acts w1 c Hs1 Hc) as (w2 & Hrun2 & Hs2 & Hcap & Hb).
  { rewrite Hc1. cbn. lia. }
  rewrite Hc1 in Hb, Hcap. cbn in Hb, Hcap.
  destruct (SetServingType_parks w2 ty ter sv rs Hs2) as (w3 & k & Hrun3 & Hmu3 & _).
  { unfold chan_full. apply bool_decide_eq_true.
    rewrite Hcap, Hb, events_calls_only by done. lia. }
  exists w1, w2. split; [done|]. split; [done|]. split; [done|].
  by exists w3, k.
Qed.

End Properties.

(** * The claims on concrete worlds *)

#[local] Existing Instance sample_imports.

Lemma ready_configured : ready configured.
Proof. repeat split. vm_compute. by eexists. Qed.

Lemma safe_configured : safe configured.
Proof. apply ready_safe, ready_configured. Qed.

Lemma safe_failing : safe failing.
Proof. split; [done|]. by left. Qed.

Lemma safe_congested : safe congested.
Proof. split; [done|]. right. vm_compute. by eexists. Qed.

(** C1 at work: two calls, a read of the channel in between. *)
Lemma SetServingType_last_call_wins_witness :
  ready configured ∧
  ∃ w' c',
    run [Call REPLICA t0 true "init"; Receive; Call PRIMARY t1 false "demote"]
      configured nobody = (Returned w' tt, c') ∧
    result (IsServing w') = Some false ∧
    ∃ w'' a t,
      CurrentTarget w' = Returned w'' (Some a) ∧
      heap w'' !! a = Some t ∧
      Target_TabletType t = PRIMARY.
Proof.
  split; [exact ready_configured|].
  apply (SetServingType_last_call_wins (H := sample_imports)
           [Call REPLICA t0 true "init"; Receive; Call PRIMARY t1 false "demote"]
           configured nobody PRIMARY false).
  - exact ready_configured.
  - reflexivity.
Defined.

(** C2 at work: the scenario of the injected ErrX. *)
Lemma SetServingType_injected_failure_witness :
  ∃ w' c',
    complete (SetServingType PRIMARY t1 true "promote" failing) nobody
      = (Returned w' (Some ErrX), c') ∧
    target (tqsc w') = target (tqsc failing) ∧
    heap w' = heap failing ∧
    deref w' (target (tqsc w')) = deref failing (target (tqsc failing)) ∧
    queryServiceEnabled (tqsc w') = queryServiceEnabled (tqsc failing) ∧
    stream_StateChanges w' c'
      = stream_StateChanges failing nobody ++ [mkStateChange true PRIMARY] ∧
    isInLameduck (tqsc w') = false.
Proof.
  apply (SetServingType_injected_failure (H := sample_imports)
           failing nobody PRIMARY t1 true "promote" ErrX);
    reflexivity.
Defined.

(** C3 as stated fails: on a newly made controller, with no failure
    injected, the call panics and the channel has carried nothing. *)
Lemma SetServingType_fresh_no_event :
  complete (SetServingType (H := sample_imports) REPLICA t0 true "init" fresh) nobody
    = (Panicked fresh, nobody) ∧
  stream_StateChanges fresh nobody = [].
Proof. split; reflexivity. Qed.

(** C3 (amended) at work, on a full channel. *)
Lemma SetServingType_event_per_call_witness :
  safe congested ∧
  ∃ w' c',
    complete (SetServingType PRIMARY t1 false "demote" congested) nobody
      = (Returned w' None, c') ∧
    stream_StateChanges w' c'
      = stream_StateChanges congested nobody ++ [mkStateChange false PRIMARY].
Proof.
  split; [exact safe_congested|].
  exact (proj1 (SetServingType_event_per_call (H := sample_imports)
                  [] congested nobody PRIMARY t1 false "demote" safe_congested)).
Defined.

(** C4 as stated fails: a newly made controller in lameduck is still in
    lameduck after the call, which panics. *)
Lemma SetServingType_fresh_keeps_lameduck :
  SetServingType (H := sample_imports) REPLICA t0 true "init" fresh_lameduck
    = Panicked fresh_lameduck ∧
  isInLameduck (tqsc fresh_lameduck) = true.
Proof. split; reflexivity. Qed.

(** C4 (amended) at work. *)
Lemma SetServingType_clears_lameduck_witness :
  safe (on_tqsc (set_isInLameduck true) failing) ∧
  ∃ w' c',
    complete (SetServingType REPLICA t0 false "init"
                (on_tqsc (set_isInLameduck true) failing)) nobody
      = (Returned w' (Some ErrX), c') ∧
    isInLameduck (tqsc w') = false.
Proof.
  split; [exact safe_failing|].
  exact (proj1 (SetServingType_clears_lameduck (H := sample_imports)
                  (on_tqsc (set_isInLameduck true) failing) nobody
                  REPLICA t0 false "init" safe_failing)).
Defined.

(** C5 at work: serving, then lameduck, then a broadcast. *)
Lemma BroadcastHealth_effective_serving_witness :
  ∃ w1 w2 c2,
    EnterLameduck (on_tqsc (set_queryServiceEnabled true) configured) = Returned w1 tt ∧
    result (IsServing w1) = Some true ∧
    complete (BroadcastHealth w1) nobody = (Returned w2 tt, c2) ∧
    stream_BroadcastData w2 c2 = [mkBroadcastData 0 RealtimeStats_zero false].
Proof.
  refine (proj1 (proj2 (proj2
    (BroadcastHealth_effective_serving
       (on_tqsc (set_queryServiceEnabled true) configured) nobody tt _)))).
  reflexivity.
Defined.

(** C6 at work. *)
Lemma QueryRules_round_trip_witness :
  ∃ w1,
    SetQueryRules "acl" (Some 7) fresh = Returned w1 None ∧
    result (GetQueryRules "acl" w1) = Some (Some 7) ∧
    (∃ w2,
       SetQueryRules "acl" (Some 8) w1 = Returned w2 None ∧
       result (GetQueryRules "acl" w2) = Some (Some 8)) ∧
    ("denylist" ≠ "acl" →
     result (GetQueryRules "denylist" w1) = result (GetQueryRules "denylist" fresh)).
Proof.
  refine (proj1 (QueryRules_round_trip fresh "acl" "denylist" (Some 7) (Some 8) tt _)).
  reflexivity.
Defined.

(** C7 at work: the test overwrites the message it was given, then the
    message it passed in. *)
Lemma Target_copies_independent_witness :
  (∃ w1 a1,
     CurrentTarget configured = Returned w1 (Some a1) ∧
     heap w1 !! a1 = Some ks0_replica ∧
     deref (caller_writes a1 (mkTarget "other" "-80" PRIMARY) w1)
       (target (tqsc (caller_writes a1 (mkTarget "other" "-80" PRIMARY) w1)))
       = Some ks0_replica ∧
     ∃ w3 a3,
       CurrentTarget (caller_writes a1 (mkTarget "other" "-80" PRIMARY) w1)
         = Returned w3 (Some a3) ∧
       heap w3 !! a3 = Some ks0_replica) ∧
  (∃ w1,
     InitDBConfig (Some 1%positive) None None configured = Returned w1 None ∧
     deref w1 (target (tqsc w1)) = Some ks0_replica ∧
     deref (caller_writes 1%positive (mkTarget "other" "-80" PRIMARY) w1)
       (target (tqsc (caller_writes 1%positive (mkTarget "other" "-80" PRIMARY) w1)))
       = Some ks0_replica ∧
     ∃ w3 a3,
       CurrentTarget (caller_writes 1%positive (mkTarget "other" "-80" PRIMARY) w1)
         = Returned w3 (Some a3) ∧
       heap w3 !! a3 = Some ks0_replica).
Proof.
  split.
  - refine (proj1 (Target_copies_independent configured 2%positive ks0_replica
                     (mkTarget "other" "-80" PRIMARY) None None _ _) _);
      reflexivity.
  - refine (proj2 (Target_copies_independent configured 1%positive ks0_replica
                     (mkTarget "other" "-80" PRIMARY) None None _ _));
      reflexivity.
Defined.

(** C8 at work. *)
Lemma other_operations_never_fail_witness :
  valid_ptr configured (Some 1%positive) ∧
  (∃ w', InitDBConfig (Some 1%positive) None None configured = Returned w' None) ∧
  IsHealthy configured = Returned configured None ∧
  ReloadSchema tt configured = Returned configured None ∧
  (∃ w', SetQueryRules "acl" (Some 7) configured = Returned w' None) ∧
  RegisterQueryRuleSource "acl" configured = Returned configured tt ∧
  UnRegisterQueryRuleSource "acl" configured = Returned configured tt.
Proof.
  assert (valid_ptr configured (Some 1%positive)) as Hp.
  { vm_compute. by eexists. }
  split; [exact Hp|].
  apply (other_operations_never_fail configured (Some 1%positive) None None tt
           "acl" (Some 7)); [reflexivity | exact Hp].
Defined.

(** C9 as stated fails: on a full state-change channel the call is
    suspended on the send while it holds the mutex. *)
Lemma SetServingType_parks_holding_lock :
  ∃ w1 k,
    SetServingType PRIMARY t1 true "promote" congested
      = Parked w1 (WaitStateChanges (mkStateChange true PRIMARY)) k ∧
    mu (tqsc congested) = false ∧
    mu (tqsc w1) = true.
Proof. eexists _, _. repeat split. Qed.

(** C9 (amended) at work, on the same world. *)
Lemma push_under_lock_witness :
  safe congested ∧
  chan_full (StateChanges (tqsc congested)) = true ∧
  ∃ w1 k,
    SetServingType REPLICA t0 false "drain" congested
      = Parked w1 (WaitStateChanges (mkStateChange false REPLICA)) k ∧
    mu (tqsc w1) = true.
Proof.
  split; [exact safe_congested|]. split; [reflexivity|].
  refine (proj1 (push_under_lock congested nobody REPLICA t0 false "drain" _) _ _).
  - reflexivity.
  - exact safe_congested.
  - reflexivity.
Defined.


(** * The scenarios of the specification, run *)

Example scenario_init :
  ∃ w1 w2,
    InitDBConfig (Some 1%positive) None None
      (caller_writes 1%positive ks0_replica fresh) = Returned w1 None ∧
    SetServingType REPLICA t0 true "init" w1 = Returned w2 None ∧
    result (IsServing w2) = Some true ∧
    tablet_type_of w2 = Some REPLICA ∧
    chan_buf (StateChanges (tqsc w2)) = [mkStateChange true REPLICA].
Proof. eexists _, _. repeat (split; [vm_compute; reflexivity|]); vm_compute; reflexivity. Qed.

Example scenario_injected_failure :
  ∃ w',
    SetServingType PRIMARY t1 true "promote" failing = Returned w' (Some ErrX) ∧
    result (IsServing w') = result (IsServing failing) ∧
    tablet_type_of w' = Some REPLICA ∧
    chan_buf (StateChanges (tqsc w')) = [mkStateChange true PRIMARY].
Proof. eexists. repeat (split; [vm_compute; reflexivity|]); vm_compute; reflexivity. Qed.

Example scenario_fresh_broadcast :
  ∃ w',
    BroadcastHealth fresh = Returned w' tt ∧
    chan_buf (BroadcastData_chan (tqsc w')) = [mkBroadcastData 0 tt false].
Proof. eexists. split; vm_compute; reflexivity. Qed.

Example scenario_lameduck_cleared :
  ∃ w1 w2 w3,
    EnterLameduck configured = Returned w1 tt ∧
    SetServingType REPLICA t0 true "init" w1 = Returned w2 None ∧
    BroadcastHealth w2 = Returned w3 tt ∧
    chan_buf (BroadcastData_chan (tqsc w3)) = [mkBroadcastData 0 tt true].
Proof. eexists _, _, _. repeat (split; [vm_compute; reflexivity|]); vm_compute; reflexivity. Qed.

(** The eleventh call without a reader: ten go through, the next one is
    parked until the test reads. *)
Example scenario_eleventh_call :
  ∃ w' c',
    run (replicate 10 (Call REPLICA t0 true "init")) configured nobody
      = (Returned w' tt, c') ∧
    got_StateChanges c' = [] ∧
    chan_buf (StateChanges (tqsc w')) = ten_events ∧
    ∃ w1 k,
      SetServingType REPLICA t0 true "init" w'
        = Parked w1 (WaitStateChanges (mkStateChange true REPLICA)) k.
Proof.
  eexists _, _. repeat (split; [vm_compute; reflexivity|]).
  eexists _, _. vm_compute. reflexivity.
Qed.

(** * The further properties on concrete worlds *)

(** X1 at work: forcing the flag on a controller in lameduck. *)
Lemma SetQueryServiceEnabledForTests_only_flag_witness :
  ∃ w',
    SetQueryServiceEnabledForTests true configured_lameduck = Returned w' tt ∧
    heap w' = heap configured_lameduck ∧
    tqsc w' = set_queryServiceEnabled true (tqsc configured_lameduck) ∧
    result (IsServing w') = Some true ∧
    ∃ w'' c',
      complete (BroadcastHealth w') nobody = (Returned w'' tt, c') ∧
      stream_BroadcastData w'' c' = [mkBroadcastData 0 tt false].
Proof.
  apply (SetQueryServiceEnabledForTests_only_flag configured_lameduck nobody true).
  reflexivity.
Defined.

(** X2 at work. *)
Lemma SetServingType_lifts_lameduck_witness :
  safe configured ∧
  ∃ w1 w2 c2 w3 c3,
    EnterLameduck configured = Returned w1 tt ∧
    complete (SetServingType REPLICA t0 true "init" w1) nobody
      = (Returned w2 None, c2) ∧
    complete (BroadcastHealth w2) c2 = (Returned w3 tt, c3) ∧
    stream_BroadcastData w3 c3 = [mkBroadcastData 0 tt true].
Proof.
  split; [exact safe_configured|].
  exact (SetServingType_lifts_lameduck configured nobody REPLICA t0 true "init"
           safe_configured).
Defined.

(** X3 at work: a configured controller is given nil. *)
Lemma InitDBConfig_nil_clears_target_witness :
  ∃ w1,
    InitDBConfig None None None configured = Returned w1 None ∧
    (∃ w2, CurrentTarget w1 = Returned w2 None) ∧
    (∃ w3,
       SetServingType PRIMARY t1 true "promote" w1 = Panicked w3 ∧
       mu (tqsc w3) = false).
Proof.
  apply (InitDBConfig_nil_clears_target configured None None PRIMARY t1 true "promote");
    reflexivity.
Defined.

(** X4 at work. *)
Lemma SetServingType_private_copy_witness :
  ∃ w1 w2 c',
    InitDBConfig (Some 1%positive) None None configured = Returned w1 None ∧
    complete (SetServingType PRIMARY t1 true "promote" w1) nobody
      = (Returned w2 None, c') ∧
    heap w2 !! 1%positive = Some ks0_replica ∧
    deref w2 (target (tqsc w2)) = Some (mkTarget "ks" "0" PRIMARY) ∧
    ∀ b u, heap configured !! b = Some u → heap w2 !! b = Some u.
Proof.
  apply (SetServingType_private_copy configured nobody 1%positive ks0_replica
           None None PRIMARY t1 true "promote");
    reflexivity.
Defined.

(** X5 at work. *)
Lemma CurrentTarget_fresh_each_time_witness :
  ∃ w1 a1 w2 a2,
    CurrentTarget configured = Returned w1 (Some a1) ∧
    CurrentTarget w1 = Returned w2 (Some a2) ∧
    a1 ≠ a2 ∧ a1 ≠ 2%positive ∧ a2 ≠ 2%positive ∧
    heap w2 !! a1 = Some ks0_replica ∧
    heap w2 !! a2 = Some ks0_replica ∧
    tqsc w2 = tqsc configured ∧
    ∀ b u, heap configured !! b = Some u → heap w2 !! b = Some u.
Proof.
  apply (CurrentTarget_fresh_each_time configured 2%positive ks0_replica);
    reflexivity.
Defined.

(** X6 at work. *)
Lemma InitDBConfig_replaces_target_witness :
  ∃ w1 w2 a2,
    InitDBConfig (Some 1%positive) None None configured = Returned w1 None ∧
    InitDBConfig (Some 2%positive) None None w1 = Returned w2 None ∧
    tqsc w2 = set_target (Some a2) (tqsc configured) ∧
    heap w2 !! a2 = Some ks0_replica ∧
    heap configured !! a2 = None ∧
    ∀ b v, heap configured !! b = Some v → heap w2 !! b = Some v.
Proof.
  apply (InitDBConfig_replaces_target configured 1%positive 2%positive
           ks0_replica ks0_replica None None None None);
    reflexivity.
Defined.

(** X7 at work. *)
Lemma calls_within_capacity_need_no_reader_witness :
  safe configured ∧
  calls_only two_calls = true ∧
  ∃ w',
    run two_calls configured nobody = (Returned w' tt, nobody) ∧
    chan_buf (StateChanges (tqsc w'))
      = [mkStateChange true REPLICA; mkStateChange false PRIMARY].
Proof.
  split; [exact safe_configured|]. split; [reflexivity|].
  apply (calls_within_capacity_need_no_reader two_calls configured nobody).
  - exact safe_configured.
  - reflexivity.
  - cbn. lia.
Defined.

(** X8 at work, on the full channel. *)
Lemma channel_bounds_kept_witness :
  safe congested ∧
  chan_ok (StateChanges (tqsc congested)) ∧
  chan_ok (BroadcastData_chan (tqsc congested)) ∧
  ∃ w' c',
    run two_calls congested nobody = (Returned w' tt, c') ∧
    chan_ok (StateChanges (tqsc w')) ∧
    chan_cap (StateChanges (tqsc w')) = 10 ∧
    BroadcastData_chan (tqsc w') = BroadcastData_chan (tqsc congested).
Proof.
  assert (chan_ok (StateChanges (tqsc congested))) as H1.
  { unfold chan_ok. cbn. lia. }
  assert (chan_ok (BroadcastData_chan (tqsc congested))) as H2.
  { unfold chan_ok. cbn. lia. }
  split; [exact safe_congested|]. split; [exact H1|]. split; [exact H2|].
  exact (proj1 (channel_bounds_kept two_calls congested nobody safe_congested H1 H2)).
Defined.

(** X9 at work. *)
Lemma lock_discipline_witness :
  (∃ k, SetServingType PRIMARY t1 true "promote" held = Parked held WaitMutex k) ∧
  (∃ k, BroadcastHealth held = Parked held WaitMutex k) ∧
  TopoServer_ held = Returned held None ∧
  IsHealthy held = Returned held None.
Proof.
  pose proof (lock_discipline held None None None PRIMARY t1 true "promote" tt
                "acl" None eq_refl) as [Hl Hf].
  split; [exact (proj1 (proj2 Hl))|].
  split; [exact (proj1 (proj2 (proj2 (proj2 (proj2 (proj2 Hl))))))|].
  split; [exact (proj1 (proj2 (proj2 (proj2 (proj2 Hf)))))|].
  exact (proj1 Hf).
Defined.

(** X10 at work: the panic on a newly made controller. *)
Lemma mutex_released_on_every_exit_witness :
  ∃ w' c',
    ((∃ r, complete (SetServingType REPLICA t0 true "init" fresh) nobody
             = (Returned w' r, c')) ∨
     complete (SetServingType REPLICA t0 true "init" fresh) nobody
       = (Panicked w', c')) ∧
    mu (tqsc w') = false ∧
    ∃ w'', EnterLameduck w' = Returned w'' tt.
Proof.
  apply (mutex_released_on_every_exit fresh nobody REPLICA t0 true "init").
  reflexivity.
Defined.

(** X11 at work. *)
Lemma SetQueryRules_commute_witness :
  ∃ wa wb w',
    SetQueryRules "acl" (Some 7) fresh = Returned wa None ∧
    SetQueryRules "denylist" (Some 8) wa = Returned w' None ∧
    SetQueryRules "denylist" (Some 8) fresh = Returned wb None ∧
    SetQueryRules "acl" (Some 7) wb = Returned w' None ∧
    heap w' = heap fresh ∧
    tqsc w' = set_queryRulesMap
                (<["denylist" := Some 8]>
                   (<["acl" := Some 7]> (queryRulesMap (tqsc fresh))))
                (tqsc fresh).
Proof.
  apply (SetQueryRules_commute fresh "acl" "denylist" (Some 7) (Some 8)).
  - reflexivity.
  - discriminate.
Defined.

(** X12 at work. *)
Lemma SetServingType_frame_witness :
  safe failing ∧
  ∃ w' c',
    complete (SetServingType PRIMARY t1 true "promote" failing) nobody
      = (Returned w' (Some ErrX), c') ∧
    queryRulesMap (tqsc w') = queryRulesMap (tqsc failing) ∧
    BroadcastData_chan (tqsc w') = BroadcastData_chan (tqsc failing) ∧
    got_BroadcastData c' = [] ∧
    TS (tqsc w') = TS (tqsc failing) ∧
    stats (tqsc w') = stats (tqsc failing) ∧
    SetServingTypeError (tqsc w') = Some ErrX ∧
    target (tqsc w') = target (tqsc failing) ∧
    chan_cap (StateChanges (tqsc w')) = 10.
Proof.
  split; [exact safe_failing|].
  exact (SetServingType_frame failing nobody PRIMARY t1 true "promote" safe_failing).
Defined.

(** X13 at work. *)
Lemma BroadcastHealth_twice_witness :
  ∃ w1 c1 w2 c2,
    complete (BroadcastHealth configured) nobody = (Returned w1 tt, c1) ∧
    complete (BroadcastHealth w1) c1 = (Returned w2 tt, c2) ∧
    stream_BroadcastData w2 c2
      = [mkBroadcastData 0 tt false; mkBroadcastData 0 tt false] ∧
    heap w2 = heap configured ∧
    queryServiceEnabled (tqsc w2) = false ∧
    isInLameduck (tqsc w2) = false ∧
    StateChanges (tqsc w2) = StateChanges (tqsc configured) ∧
    got_StateChanges c2 = [].
Proof.
  apply (BroadcastHealth_twice configured nobody). reflexivity.
Defined.

(** X14 at work. *)
Lemma lameduck_sticky_witness :
  (∃ w', InitDBConfig (Some 1%positive) None None configured_lameduck = Returned w' None ∧
         isInLameduck (tqsc w') = true) ∧
  (∃ w', SetQueryRules "acl" (Some 7) configured_lameduck = Returned w' None ∧
         isInLameduck (tqsc w') = true) ∧
  (∃ w', SetQueryServiceEnabledForTests true configured_lameduck = Returned w' tt ∧
         isInLameduck (tqsc w') = true) ∧
  (∃ w' c', complete (BroadcastHealth configured_lameduck) nobody = (Returned w' tt, c') ∧
            isInLameduck (tqsc w') = true) ∧
  (∃ w', EnterLameduck configured_lameduck = Returned w' tt ∧
         isInLameduck (tqsc w') = true).
Proof.
  apply (lameduck_sticky configured_lameduck nobody (Some 1%positive) None None
           true "acl" (Some 7)).
  - reflexivity.
  - reflexivity.
  - vm_compute. by eexists.
Defined.

(** X15 at work. *)
Lemma injected_failure_freezes_state_witness :
  ∃ w' c',
    run two_calls failing nobody = (Returned w' tt, c') ∧
    heap w' = heap failing ∧
    target (tqsc w') = target (tqsc failing) ∧
    result (IsServing w') = Some false ∧
    tablet_type_of w' = tablet_type_of failing ∧
    stream_StateChanges w' c'
      = [mkStateChange true REPLICA; mkStateChange false PRIMARY] ∧
    (events two_calls ≠ [] → isInLameduck (tqsc w') = false).
Proof.
  apply (injected_failure_freezes_state two_calls failing nobody ErrX);
    reflexivity.
Defined.

(** X16 at work. *)
Lemma new_controller_takes_ten_witness :
  ∃ w1 w2,
    InitDBConfig (Some 1%positive) None None
      (caller_writes 1%positive ks0_replica fresh) = Returned w1 None ∧
    run ten_calls w1 nobody = (Returned w2 tt, nobody) ∧
    chan_buf (StateChanges (tqsc w2)) = ten_events ∧
    ∃ w3 k,
      SetServingType PRIMARY t1 true "promote" w2
        = Parked w3 (WaitStateChanges (mkStateChange true PRIMARY)) k ∧
      mu (tqsc w3) = true.
Proof.
  apply (new_controller_takes_ten (H := sample_imports) tt 1%positive ks0_replica None None
           ten_calls nobody PRIMARY t1 true "promote");
    reflexivity.
Defined.
